(** * mtop: memory-statistics normalisation and the refresh state machine

    A shallow embedding of [system.go] (page-counter arithmetic of
    [collectMemoryStats], [getPageSize], [collectSystemStats]), of the
    CGO bridge [GetVMStatisticsCGO] and of the bubbletea model
    ([initialModel], [Init], [Update], [View] and the render helpers),
    followed by the properties of the specification.

    Conventions
    - Go's [uint64]/[uint32]/[int64] values are integers of [Z]; every
      arithmetic operation of the source is written with its wrap-around.
    - Go's [float64] is Rocq's primitive binary64 [float].
    - A Go function returning [(T, error)] returns a pair [T * error],
      [error] being [option string] ([None] is [nil], [Some s] an error
      whose [Error()] text is [s]).
    - A run-time panic (integer division by zero) is the [Panicked]
      outcome; everything else is [Returned]. *)

From Stdlib Require Import ZArith Lia Bool String Ascii List Floats DecimalString.
Import ListNotations.
Open Scope Z_scope.

(* ================================================================== *)
(** ** Machine integers *)
(* ================================================================== *)

Module Machine.

Definition two32 : Z := 2 ^ 32.
Definition two63 : Z := 2 ^ 63.
Definition two64 : Z := 2 ^ 64.

(** Conversions to the unsigned types keep the low bits. *)
Definition uint32 (z : Z) : Z := z mod two32.
Definition uint64 (z : Z) : Z := z mod two64.

(** [int64] is two's complement. *)
Definition int64 (z : Z) : Z := (z + two63) mod two64 - two63.

Definition add64 (x y : Z) : Z := uint64 (x + y).
Definition sub64 (x y : Z) : Z := uint64 (x - y).
Definition mul64 (x y : Z) : Z := uint64 (x * y).

Definition in_u32 (z : Z) : Prop := 0 <= z < two32.
Definition in_u64 (z : Z) : Prop := 0 <= z < two64.

(** [float64(x)] for an unsigned 64-bit [x]: the nearest binary64,
    ties to even. *)
Definition float64_of_uint64 (z : Z) : float :=
  SF2Prim (binary_normalize prec emax z 0 false).

End Machine.
Import Machine.

(* ================================================================== *)
(** ** Outcomes of Go calls *)
(* ================================================================== *)

Inductive outcome (A : Type) : Type :=
| Returned (a : A)
| Panicked (reason : string).
Arguments Returned {A} a.
Arguments Panicked {A} reason.

Definition bind {A B : Type} (o : outcome A) (k : A -> outcome B) : outcome B :=
  match o with
  | Returned a => k a
  | Panicked r => Panicked r
  end.

Notation "'do' x <- o ; k" := (bind o (fun x => k))
  (at level 10, x pattern, o at level 100, k at level 200).

(** Go's [error] interface, seen through [Error()]. *)
Definition error : Type := option string.
Definition nil_error : error := None.

(** String concatenation, Go's [+] on strings. *)
Infix "+++" := String.append (at level 60, right associativity).

Definition LF : string := String (ascii_of_nat 10) EmptyString.

(** [fmt.Sprintf("%d", z)] on an integer. *)
Definition fmt_d (z : Z) : string := NilZero.string_of_int (Z.to_int z).

(** [x / y] on [uint64]: the run-time panics when [y] is zero. *)
Definition div64 (x y : Z) : outcome Z :=
  if y =? 0 then Panicked "runtime error: integer divide by zero"
  else Returned (x / y).

(* ================================================================== *)
(** ** Data model (the stats types and [vm_statistics64]) *)
(* ================================================================== *)

(** [vm_statistics64], the layout of [mach/vm_statistics.h]. *)
Record vm_statistics64 : Type := {
  FreeCount : Z;                          (* uint32 *)
  ActiveCount : Z;                        (* uint32 *)
  InactiveCount : Z;                      (* uint32 *)
  WireCount : Z;                          (* uint32 *)
  ZeroFillCount : Z;                      (* uint64 *)
  Reactivations : Z;                      (* uint64 *)
  Pageins : Z;                            (* uint64 *)
  Pageouts : Z;                           (* uint64 *)
  Faults : Z;                             (* uint64 *)
  CowFaults : Z;                          (* uint64 *)
  Lookups : Z;                            (* uint64 *)
  Hits : Z;                               (* uint64 *)
  Purges : Z;                             (* uint64 *)
  PurgeableCount : Z;                     (* uint32 *)
  SpeculativeCount : Z;                   (* uint32 *)
  Decompressions : Z;                     (* uint64 *)
  Compressions : Z;                       (* uint64 *)
  Swapins : Z;                            (* uint64 *)
  Swapouts : Z;                           (* uint64 *)
  CompressorPageCount : Z;                (* uint32 *)
  ThrottledCount : Z;                     (* uint32 *)
  ExternalPageCount : Z;                  (* uint32 *)
  InternalPageCount : Z;                  (* uint32 *)
  TotalUncompressedPagesInCompressor : Z  (* uint64 *)
}.

(** The page counters that [collectMemoryStats] reads hold [uint32]
    values. *)
Record wf_vm (v : vm_statistics64) : Prop := {
  wf_free : in_u32 (FreeCount v);
  wf_active : in_u32 (ActiveCount v);
  wf_inactive : in_u32 (InactiveCount v);
  wf_wire : in_u32 (WireCount v);
  wf_purgeable : in_u32 (PurgeableCount v);
  wf_speculative : in_u32 (SpeculativeCount v);
  wf_compressor : in_u32 (CompressorPageCount v);
  wf_external : in_u32 (ExternalPageCount v)
}.

Record SwapStats : Type := {
  swap_Total : Z;      (* uint64 *)
  swap_Used : Z;       (* uint64 *)
  swap_Usage : float
}.

Record MemoryStats : Type := {
  Total : Z;           (* uint64, bytes *)
  Used : Z;            (* uint64, bytes *)
  Available : Z;       (* uint64, bytes *)
  Usage : float;       (* percentage *)
  Swap : SwapStats
}.

Record CPUStats : Type := {
  cpu_Usage : float;
  Cores : list float;
  LoadAvg : float * float * float;
  cpu_Temp : float
}.

Record GPUStats : Type := {
  gpu_Usage : float;
  MemoryUsage : float;
  MemoryUsed : Z;      (* uint64 *)
  MemoryTotal : Z;     (* uint64 *)
  gpu_Temp : float
}.

Record SystemStats : Type := {
  CPU : CPUStats;
  Memory : MemoryStats;
  GPU : GPUStats;
  Uptime : Z           (* time.Duration *)
}.

(** Zero values ([var x T], [T{}]). *)
Definition zero_SwapStats : SwapStats :=
  {| swap_Total := 0; swap_Used := 0; swap_Usage := 0%float |}.
Definition zero_MemoryStats : MemoryStats :=
  {| Total := 0; Used := 0; Available := 0; Usage := 0%float;
     Swap := zero_SwapStats |}.
Definition zero_CPUStats : CPUStats :=
  {| cpu_Usage := 0%float; Cores := [];
     LoadAvg := (0%float, 0%float, 0%float); cpu_Temp := 0%float |}.
Definition zero_GPUStats : GPUStats :=
  {| gpu_Usage := 0%float; MemoryUsage := 0%float; MemoryUsed := 0;
     MemoryTotal := 0; gpu_Temp := 0%float |}.
Definition zero_SystemStats : SystemStats :=
  {| CPU := zero_CPUStats; Memory := zero_MemoryStats;
     GPU := zero_GPUStats; Uptime := 0 |}.

(* ================================================================== *)
(** ** The host: what the kernel answers *)
(* ================================================================== *)

(** The source reaches the kernel through [unix.SysctlUint64] and the C
    function [getVMStats]; a [Host] fixes their answers for one
    collection. *)
Record Host : Type := {
  (** [unix.SysctlUint64(name)] *)
  SysctlUint64 : string -> Z * error;
  (** [C.getVMStats(&cStats)]: the [kern_return_t] and the filled
      structure. *)
  getVMStats : Z * vm_statistics64
}.

(** [GetVMStatisticsCGO] *)
Definition GetVMStatisticsCGO (h : Host) : option vm_statistics64 * error :=
  let '(ret, c) := getVMStats h in
  if negb (ret =? 0) then
    (None, Some ("host_statistics64 failed with error code: " +++ fmt_d ret))
  else
    (Some {|
       FreeCount := uint32 (FreeCount c);
       ActiveCount := uint32 (ActiveCount c);
       InactiveCount := uint32 (InactiveCount c);
       WireCount := uint32 (WireCount c);
       ZeroFillCount := uint64 (ZeroFillCount c);
       Reactivations := uint64 (Reactivations c);
       Pageins := uint64 (Pageins c);
       Pageouts := uint64 (Pageouts c);
       Faults := uint64 (Faults c);
       CowFaults := uint64 (CowFaults c);
       Lookups := uint64 (Lookups c);
       Hits := uint64 (Hits c);
       Purges := uint64 (Purges c);
       PurgeableCount := uint32 (PurgeableCount c);
       SpeculativeCount := uint32 (SpeculativeCount c);
       Decompressions := uint64 (Decompressions c);
       Compressions := uint64 (Compressions c);
       Swapins := uint64 (Swapins c);
       Swapouts := uint64 (Swapouts c);
       CompressorPageCount := uint32 (CompressorPageCount c);
       ThrottledCount := uint32 (ThrottledCount c);
       ExternalPageCount := uint32 (ExternalPageCount c);
       InternalPageCount := uint32 (InternalPageCount c);
       TotalUncompressedPagesInCompressor :=
         uint64 (TotalUncompressedPagesInCompressor c)
     |}, nil_error).

(** [getVMStatistics64] *)
Definition getVMStatistics64 (h : Host) : option vm_statistics64 * error :=
  GetVMStatisticsCGO h.

(** [getPageSize] *)
Definition getPageSize (h : Host) : Z * error :=
  let '(pageSize, err) := SysctlUint64 h "hw.pagesize" in
  match err with
  | Some _ =>
      let '(vmPageSize, vmErr) := SysctlUint64 h "vm.pagesize" in
      match vmErr with
      | None => (vmPageSize, nil_error)
      | Some _ => (4096, nil_error)
      end
  | None => (pageSize, nil_error)
  end.

(** [collectSwapStats] *)
Definition collectSwapStats : SwapStats * error := (zero_SwapStats, nil_error).

(* ================================================================== *)
(** ** Page arithmetic of [collectMemoryStats] *)
(* ================================================================== *)

(** [usedPages] as first assigned: the [uint64] sum and differences of
    the counters, evaluated left to right. *)
Definition usedPages_sum (vmStats : vm_statistics64) : Z :=
  sub64
    (sub64
       (add64
          (add64
             (add64
                (add64
                   (add64 (uint64 0) (uint64 (ActiveCount vmStats)))
                   (uint64 (InactiveCount vmStats)))
                (uint64 (WireCount vmStats)))
             (uint64 (SpeculativeCount vmStats)))
          (uint64 (CompressorPageCount vmStats)))
       (uint64 (PurgeableCount vmStats)))
    (uint64 (ExternalPageCount vmStats)).

Definition freePages (vmStats : vm_statistics64) : Z :=
  uint64 (FreeCount vmStats).

(** [usedPages] after the guard "used + free doesn't exceed total". *)
Definition usedPages (totalPages : Z) (vmStats : vm_statistics64) : Z :=
  let usedPages := usedPages_sum vmStats in
  if add64 usedPages (freePages vmStats) >? totalPages
  then sub64 totalPages (freePages vmStats)
  else usedPages.

(** [availablePages] after the guard "available doesn't exceed total". *)
Definition availablePages (totalPages : Z) (vmStats : vm_statistics64) : Z :=
  let availablePages :=
    add64 (add64 (freePages vmStats) (uint64 (InactiveCount vmStats)))
          (uint64 (PurgeableCount vmStats)) in
  if availablePages >? totalPages then totalPages else availablePages.

(** The part of [collectMemoryStats] that follows the three system
    queries: from [physmem], [pageSize] and [vmStats] to [memStats]. *)
Definition memStats_of (physmem pageSize : Z) (vmStats : vm_statistics64)
  : outcome MemoryStats :=
  do totalPages <- div64 physmem pageSize;
  let used := mul64 (usedPages totalPages vmStats) pageSize in
  let available := mul64 (availablePages totalPages vmStats) pageSize in
  let usage :=
    (float64_of_uint64 used / float64_of_uint64 physmem * 100)%float in
  let '(swap, _) := collectSwapStats in
  Returned {| Total := physmem; Used := used; Available := available;
              Usage := usage; Swap := swap |}.

(** [collectMemoryStats] *)
Definition collectMemoryStats (h : Host) : outcome (MemoryStats * error) :=
  let memStats := zero_MemoryStats in
  let '(physmem, err) := SysctlUint64 h "hw.memsize" in
  match err with
  | Some e =>
      Returned (memStats, Some ("failed to get physical memory: " +++ e))
  | None =>
      let '(pageSize, err) := getPageSize h in
      match err with
      | Some e =>
          Returned (memStats, Some ("failed to get page size: " +++ e))
      | None =>
          match getVMStatistics64 h with
          | (_, Some e) =>
              Returned (memStats, Some ("failed to get VM statistics: " +++ e))
          | (None, None) =>
              Panicked "runtime error: invalid memory address or nil pointer dereference"
          | (Some vmStats, None) =>
              do memStats <- memStats_of physmem pageSize vmStats;
              Returned (memStats, nil_error)
          end
      end
  end.

(** [collectSystemStats] *)
Definition collectSystemStats (h : Host) : outcome (SystemStats * error) :=
  do (mem, err) <- collectMemoryStats h;
  match err with
  | Some e =>
      Returned ({| CPU := zero_CPUStats; Memory := mem; GPU := zero_GPUStats;
                   Uptime := 0 |},
                Some ("failed to collect memory stats: " +++ e))
  | None =>
      Returned ({| CPU := zero_CPUStats; Memory := mem; GPU := zero_GPUStats;
                   Uptime := 0 |}, nil_error)
  end.

(* ================================================================== *)
(** ** The interactive model ([model], [initialModel], [Update]) *)
(* ================================================================== *)

(** [time.Duration] is an [int64] count of nanoseconds, [time.Time] an
    instant; both are integers here. *)
Definition Duration : Type := Z.
Definition Time : Type := Z.

Definition Millisecond : Duration := 1000000.
Definition Second : Duration := 1000000000.

Inductive ViewMode : Type :=
| OverviewMode
| CPUDetailMode
| MemoryDetailMode
| GPUDetailMode.

Record model : Type := {
  stats : SystemStats;
  viewMode : ViewMode;
  refreshRate : Duration;
  lastUpdate : Time;
  width : Z;
  height : Z;
  quit : bool;
  lastError : string
}.

(** Field assignments [m.f = v] on the receiver copy. *)
Definition set_stats (m : model) (v : SystemStats) : model :=
  {| stats := v; viewMode := viewMode m; refreshRate := refreshRate m;
     lastUpdate := lastUpdate m; width := width m; height := height m;
     quit := quit m; lastError := lastError m |}.
Definition set_viewMode (m : model) (v : ViewMode) : model :=
  {| stats := stats m; viewMode := v; refreshRate := refreshRate m;
     lastUpdate := lastUpdate m; width := width m; height := height m;
     quit := quit m; lastError := lastError m |}.
Definition set_refreshRate (m : model) (v : Duration) : model :=
  {| stats := stats m; viewMode := viewMode m; refreshRate := v;
     lastUpdate := lastUpdate m; width := width m; height := height m;
     quit := quit m; lastError := lastError m |}.
Definition set_lastUpdate (m : model) (v : Time) : model :=
  {| stats := stats m; viewMode := viewMode m; refreshRate := refreshRate m;
     lastUpdate := v; width := width m; height := height m;
     quit := quit m; lastError := lastError m |}.
Definition set_width (m : model) (v : Z) : model :=
  {| stats := stats m; viewMode := viewMode m; refreshRate := refreshRate m;
     lastUpdate := lastUpdate m; width := v; height := height m;
     quit := quit m; lastError := lastError m |}.
Definition set_height (m : model) (v : Z) : model :=
  {| stats := stats m; viewMode := viewMode m; refreshRate := refreshRate m;
     lastUpdate := lastUpdate m; width := width m; height := v;
     quit := quit m; lastError := lastError m |}.
Definition set_quit (m : model) (v : bool) : model :=
  {| stats := stats m; viewMode := viewMode m; refreshRate := refreshRate m;
     lastUpdate := lastUpdate m; width := width m; height := height m;
     quit := v; lastError := lastError m |}.
Definition set_lastError (m : model) (v : string) : model :=
  {| stats := stats m; viewMode := viewMode m; refreshRate := refreshRate m;
     lastUpdate := lastUpdate m; width := width m; height := height m;
     quit := quit m; lastError := v |}.

(** Messages delivered to [Update]: the three the source matches on,
    and any other [tea.Msg]. *)
Inductive Msg : Type :=
| WindowSizeMsg (Width Height : Z)
| TickMsg (t : Time)
| KeyMsg (key : string)          (* the value of [msg.String()] *)
| OtherMsg.

(** Commands handed back to the runtime: [tea.Quit], or [tea.Tick(d, f)]
    with [f] wrapping the instant in a [TickMsg]. The [nil] command is
    [None]. *)
Inductive Cmd : Type :=
| Quit
| Tick (d : Duration).

(** [initialModel]; [now] is the value of [time.Now()]. *)
Definition initialModel (h : Host) (now : Time) : outcome model :=
  let m := {| stats := zero_SystemStats;
              viewMode := OverviewMode;
              refreshRate := Second;
              lastUpdate := now;
              width := 80;
              height := 24;
              quit := false;
              lastError := EmptyString |} in
  do (stats, err) <- collectSystemStats h;
  match err with
  | None => Returned (set_stats m stats)
  | Some e =>
      let m := set_lastError m ("Failed to initialize system stats: " +++ e) in
      Returned
        (set_stats m
           {| CPU := {| cpu_Usage := 0%float;
                        Cores := repeat 0%float 8;
                        LoadAvg := (0%float, 0%float, 0%float);
                        cpu_Temp := 0%float |};
              Memory := {| Total := 0; Used := 0; Available := 0;
                           Usage := 0%float;
                           Swap := {| swap_Total := 0; swap_Used := 0;
                                      swap_Usage := 0%float |} |};
              GPU := {| gpu_Usage := 0%float; MemoryUsage := 0%float;
                        MemoryUsed := 0; MemoryTotal := 0;
                        gpu_Temp := 0%float |};
              Uptime := 0 |})
  end.

(** [Init] *)
Definition Init (m : model) : option Cmd := Some (Tick (refreshRate m)).

(** The key switch of [Update]. *)
Definition Update_key (m : model) (key : string) : model * option Cmd :=
  if (key =? "ctrl+c")%string || (key =? "q")%string then
    (set_quit m true, Some Quit)
  else if (key =? "1")%string then (set_viewMode m OverviewMode, None)
  else if (key =? "2")%string then (set_viewMode m CPUDetailMode, None)
  else if (key =? "3")%string then (set_viewMode m MemoryDetailMode, None)
  else if (key =? "4")%string then (set_viewMode m GPUDetailMode, None)
  else if (key =? "+")%string || (key =? "=")%string then
    if refreshRate m >? 100 * Millisecond
    then (set_refreshRate m (int64 (refreshRate m - 100 * Millisecond)), None)
    else (m, None)
  else if (key =? "-")%string || (key =? "_")%string then
    if refreshRate m <? 5 * Second
    then (set_refreshRate m (int64 (refreshRate m + 100 * Millisecond)), None)
    else (m, None)
  else (m, None).

(** [Update]; the host answers the collection made on a tick. *)
Definition Update (h : Host) (m : model) (msg : Msg)
  : outcome (model * option Cmd) :=
  match msg with
  | WindowSizeMsg Width Height =>
      let m := set_width m Width in
      let m := set_height m Height in
      Returned (m, None)
  | TickMsg t =>
      do (newStats, err) <- collectSystemStats h;
      let m :=
        match err with
        | None =>
            let m := set_stats m newStats in
            set_lastError m EmptyString
        | Some e => set_lastError m ("Error collecting stats: " +++ e)
        end in
      let m := set_lastUpdate m t in
      Returned (m, Some (Tick (refreshRate m)))
  | KeyMsg key => Returned (Update_key m key)
  | OtherMsg => Returned (m, None)
  end.

(** A run of the event loop: each event comes with the host as it is
    when the event is handled. *)
Fixpoint run (m : model) (events : list (Host * Msg)) : outcome model :=
  match events with
  | [] => Returned m
  | (h, msg) :: rest =>
      do (m', _) <- Update h m msg;
      run m' rest
  end.

(** States the program can be in: the initial model, and whatever
    [Update] returns from such a state. *)
Inductive reachable : model -> Prop :=
| reach_init h now m :
    initialModel h now = Returned m -> reachable m
| reach_step h msg m m' c :
    reachable m -> Update h m msg = Returned (m', c) -> reachable m'.

(* ================================================================== *)
(** ** Rendering ([View] and its helpers) *)
(* ================================================================== *)

(** The formatting routines of Go's [fmt] and [time] packages that the
    source calls. *)
Class GoFmt : Type := {
  (** [%.Nf] on a [float64] *)
  Sprintf_f : nat -> float -> string;
  (** [%2d] on an [int] *)
  Sprintf_2d : Z -> string;
  (** [%v] on a [time.Duration] *)
  Sprintf_v : Duration -> string;
  (** [t.Format(layout)] *)
  Time_Format : Time -> string -> string;
  (** [d.Round(m)] *)
  Duration_Round : Duration -> Duration -> Duration
}.

Section Presenter.

Context {F : GoFmt}.

(** The untyped constant [1024*1024*1024] as a [float64]. *)
Definition GB : float := 1073741824%float.

Definition rule : string :=
  "━━━━━━━━━━━━━━━━━━━━━━━━━━━━━━━━━━━━━━━━━━━━━━━━━━━━━━━━━━━━━━━━━━━━━━━━━━━━━━".

(** [renderOverview] *)
Definition renderOverview (m : model) : string :=
  let cpu := CPU (stats m) in
  let mem := Memory (stats m) in
  let gpu := GPU (stats m) in
  let s := "CPU Usage:    " +++ Sprintf_f 1 (cpu_Usage cpu) +++ "% | Temp: "
           +++ Sprintf_f 1 (cpu_Temp cpu) +++ "°C" +++ LF in
  let s := s +++ ("Memory Usage: " +++ Sprintf_f 1 (Usage mem) +++ "% ("
           +++ Sprintf_f 1 (float64_of_uint64 (Used mem) / GB)%float
           +++ " GB / "
           +++ Sprintf_f 1 (float64_of_uint64 (Total mem) / GB)%float
           +++ " GB)" +++ LF) in
  let s := s +++ ("GPU Usage:    " +++ Sprintf_f 1 (gpu_Usage gpu)
           +++ "% | Memory: " +++ Sprintf_f 1 (MemoryUsage gpu) +++ "%"
           +++ LF) in
  let s := s +++ ("Load Average: "
           +++ Sprintf_f 2 (fst (fst (LoadAvg cpu))) +++ ", "
           +++ Sprintf_f 2 (snd (fst (LoadAvg cpu))) +++ ", "
           +++ Sprintf_f 2 (snd (LoadAvg cpu)) +++ LF) in
  let s := s +++ ("Uptime:       "
           +++ Sprintf_v (Duration_Round (Uptime (stats m)) Second) +++ LF) in
  s.

(** The [range m.stats.CPU.Cores] loop of [renderCPUDetail]. *)
Fixpoint renderCores (i : Z) (cores : list float) (s : string) : string :=
  match cores with
  | [] => s
  | usage :: rest =>
      renderCores (i + 1) rest
        (s +++ ("Core " +++ Sprintf_2d i +++ ": " +++ Sprintf_f 1 usage
                +++ "%" +++ LF))
  end.

(** [renderCPUDetail] *)
Definition renderCPUDetail (m : model) : string :=
  let cpu := CPU (stats m) in
  let s := "Overall CPU Usage: " +++ Sprintf_f 1 (cpu_Usage cpu) +++ "%"
           +++ LF in
  let s := s +++ ("Temperature: " +++ Sprintf_f 1 (cpu_Temp cpu) +++ "°C"
           +++ LF +++ LF) in
  let s := s +++ ("Per-Core Usage:" +++ LF) in
  let s := renderCores 0 (Cores cpu) s in
  let s := s +++ (LF +++ "Load Average: "
           +++ Sprintf_f 2 (fst (fst (LoadAvg cpu))) +++ ", "
           +++ Sprintf_f 2 (snd (fst (LoadAvg cpu))) +++ ", "
           +++ Sprintf_f 2 (snd (LoadAvg cpu)) +++ LF) in
  s.

(** [renderMemoryDetail] *)
Definition renderMemoryDetail (m : model) : string :=
  let mem := Memory (stats m) in
  let s := "Memory Usage: " +++ Sprintf_f 1 (Usage mem) +++ "% ("
           +++ Sprintf_f 2 (float64_of_uint64 (Used mem) / GB)%float
           +++ " GB used / "
           +++ Sprintf_f 2 (float64_of_uint64 (Total mem) / GB)%float
           +++ " GB total)" +++ LF in
  let s := s +++ ("Available: "
           +++ Sprintf_f 2 (float64_of_uint64 (Available mem) / GB)%float
           +++ " GB" +++ LF +++ LF) in
  let s := s +++ ("Swap Usage: " +++ Sprintf_f 1 (swap_Usage (Swap mem))
           +++ "% ("
           +++ Sprintf_f 2
                 (float64_of_uint64 (swap_Used (Swap mem)) / GB)%float
           +++ " GB used / "
           +++ Sprintf_f 2
                 (float64_of_uint64 (swap_Total (Swap mem)) / GB)%float
           +++ " GB total)" +++ LF) in
  s.

(** [renderGPUDetail] *)
Definition renderGPUDetail (m : model) : string :=
  let gpu := GPU (stats m) in
  let s := "GPU Usage: " +++ Sprintf_f 1 (gpu_Usage gpu) +++ "%" +++ LF in
  let s := s +++ ("Temperature: " +++ Sprintf_f 1 (gpu_Temp gpu) +++ "°C"
           +++ LF +++ LF) in
  let s := s +++ ("GPU Memory Usage: " +++ Sprintf_f 1 (MemoryUsage gpu)
           +++ "% ("
           +++ Sprintf_f 2 (float64_of_uint64 (MemoryUsed gpu) / GB)%float
           +++ " GB used / "
           +++ Sprintf_f 2 (float64_of_uint64 (MemoryTotal gpu) / GB)%float
           +++ " GB total)" +++ LF) in
  s.

(** [View] *)
Definition View (m : model) : string :=
  if quit m then EmptyString
  else
    let s := EmptyString in
    let s :=
      match viewMode m with
      | OverviewMode => s +++ ("mtop - System Monitor (Overview)" +++ LF)
      | CPUDetailMode => s +++ ("mtop - CPU Details" +++ LF)
      | MemoryDetailMode => s +++ ("mtop - Memory Details" +++ LF)
      | GPUDetailMode => s +++ ("mtop - GPU Details" +++ LF)
      end in
    let s := s +++ ("Last update: "
             +++ Time_Format (lastUpdate m) "15:04:05"
             +++ " | Refresh rate: " +++ Sprintf_v (refreshRate m) +++ LF) in
    let s := s +++ (rule +++ LF +++ LF) in
    let s :=
      match viewMode m with
      | OverviewMode => s +++ renderOverview m
      | CPUDetailMode => s +++ renderCPUDetail m
      | MemoryDetailMode => s +++ renderMemoryDetail m
      | GPUDetailMode => s +++ renderGPUDetail m
      end in
    let s := s +++ (LF +++ rule +++ LF) in
    let s :=
      if negb (lastError m =? EmptyString)%string
      then s +++ ("⚠ " +++ lastError m +++ LF)
      else s in
    let s := s +++ ("1: Overview | 2: CPU | 3: Memory | 4: GPU | +/-: Refresh rate | q: Quit"
             +++ LF) in
    s.

End Presenter.

(* ================================================================== *)
(** ** Sample inputs *)
(* ================================================================== *)

(** A [vm_statistics64] with the given page counters and zero
    elsewhere. *)
Definition pages (free active inactive wire purgeable speculative
                  compressor external : Z) : vm_statistics64 :=
  {| FreeCount := free; ActiveCount := active; InactiveCount := inactive;
     WireCount := wire; ZeroFillCount := 0; Reactivations := 0;
     Pageins := 0; Pageouts := 0; Faults := 0; CowFaults := 0;
     Lookups := 0; Hits := 0; Purges := 0; PurgeableCount := purgeable;
     SpeculativeCount := speculative; Decompressions := 0;
     Compressions := 0; Swapins := 0; Swapouts := 0;
     CompressorPageCount := compressor; ThrottledCount := 0;
     ExternalPageCount := external; InternalPageCount := 0;
     TotalUncompressedPagesInCompressor := 0 |}.

(** The text of the errno that [sysctl] reports for an unknown name. *)
Definition ENOENT : string := "no such file or directory".

(** A host on which every query succeeds. *)
Definition host_ok (physmem pageSize : Z) (vm : vm_statistics64) : Host :=
  {| SysctlUint64 := fun name =>
       if (name =? "hw.memsize")%string then (physmem, nil_error)
       else if (name =? "hw.pagesize")%string then (pageSize, nil_error)
       else (0, Some ENOENT);
     getVMStats := (0, vm) |}.

(** A host on which [host_statistics64] fails with [KERN_FAILURE]. *)
Definition host_vm_failure (physmem pageSize : Z) : Host :=
  {| SysctlUint64 := fun name =>
       if (name =? "hw.memsize")%string then (physmem, nil_error)
       else if (name =? "hw.pagesize")%string then (pageSize, nil_error)
       else (0, Some ENOENT);
     getVMStats := (5, pages 0 0 0 0 0 0 0 0) |}.

(** A host on which neither page-size query succeeds. *)
Definition host_no_pagesize (physmem : Z) (vm : vm_statistics64) : Host :=
  {| SysctlUint64 := fun name =>
       if (name =? "hw.memsize")%string then (physmem, nil_error)
       else (0, Some ENOENT);
     getVMStats := (0, vm) |}.

(** The end-to-end example of the specification. *)
Definition vm_example : vm_statistics64 := pages 200 100 50 30 20 5 10 5.

(** A formatter for closed examples: every routine prints nothing. *)
Definition silent_fmt : GoFmt :=
  {| Sprintf_f := fun _ _ => EmptyString;
     Sprintf_2d := fun _ => EmptyString;
     Sprintf_v := fun _ => EmptyString;
     Time_Format := fun _ _ => EmptyString;
     Duration_Round := fun d _ => d |}.

(** A model as [initialModel] builds it, before the first collection. *)
Definition model0 : model :=
  {| stats := zero_SystemStats; viewMode := OverviewMode;
     refreshRate := Second; lastUpdate := 0; width := 80; height := 24;
     quit := false; lastError := EmptyString |}.

(** The first model of a session on the host of the end-to-end example,
    started at instant 0. *)
Definition model1 : model :=
  Eval vm_compute in
    match initialModel (host_ok (4096 * 1000) 4096 vm_example) 0 with
    | Returned m => m
    | Panicked _ => model0
    end.

(** An event that asks for a shorter interval: the [+] or [=] key. *)
Definition decrement_event (e : Host * Msg) : Prop :=
  snd e = KeyMsg "+" \/ snd e = KeyMsg "=".

(** The used-page figure as the specification words it: the signed
    value of the sum and differences of the counters. *)
Definition spec_usedPages (vmStats : vm_statistics64) : Z :=
  ActiveCount vmStats + InactiveCount vmStats + WireCount vmStats
  + SpeculativeCount vmStats + CompressorPageCount vmStats
  - PurgeableCount vmStats - ExternalPageCount vmStats.

(** Every field of the model other than [quit] agrees. *)
Definition same_other_fields (m m' : model) : Prop :=
  stats m' = stats m /\ viewMode m' = viewMode m /\
  refreshRate m' = refreshRate m /\ lastUpdate m' = lastUpdate m /\
  width m' = width m /\ height m' = height m /\
  lastError m' = lastError m.

(** The refresh rates the key handler can produce from one second:
    the multiples of 100ms between 100ms and 5s. *)
Definition rate_ok (r : Duration) : Prop :=
  exists k, 1 <= k <= 50 /\ r = k * (100 * Millisecond).

(** Every field of a [vm_statistics64] holds a value of its Go type. *)
Definition wf_vm_all (v : vm_statistics64) : Prop :=
  in_u32 (FreeCount v) /\ in_u32 (ActiveCount v) /\
  in_u32 (InactiveCount v) /\ in_u32 (WireCount v) /\
  in_u64 (ZeroFillCount v) /\ in_u64 (Reactivations v) /\
  in_u64 (Pageins v) /\ in_u64 (Pageouts v) /\ in_u64 (Faults v) /\
  in_u64 (CowFaults v) /\ in_u64 (Lookups v) /\ in_u64 (Hits v) /\
  in_u64 (Purges v) /\ in_u32 (PurgeableCount v) /\
  in_u32 (SpeculativeCount v) /\ in_u64 (Decompressions v) /\
  in_u64 (Compressions v) /\ in_u64 (Swapins v) /\ in_u64 (Swapouts v) /\
  in_u32 (CompressorPageCount v) /\ in_u32 (ThrottledCount v) /\
  in_u32 (ExternalPageCount v) /\ in_u32 (InternalPageCount v) /\
  in_u64 (TotalUncompressedPagesInCompressor v).

(** The keys the switch of [Update] has a case for. *)
Definition bound_key (key : string) : bool :=
  ((key =? "ctrl+c") || (key =? "q") || (key =? "1") || (key =? "2")
   || (key =? "3") || (key =? "4") || (key =? "+") || (key =? "=")
   || (key =? "-") || (key =? "_"))%string.

(** An event that asks for a longer interval: the [-] or [_] key. *)
Definition increment_event (e : Host * Msg) : Prop :=
  snd e = KeyMsg "-" \/ snd e = KeyMsg "_".

(** The last line [View] writes. *)
Definition View_footer : string :=
  "1: Overview | 2: CPU | 3: Memory | 4: GPU | +/-: Refresh rate | q: Quit"
  +++ LF.

(** The stats of a state carry no CPU, GPU, swap or uptime figure: all
    of them are zero, with no core or the eight cores of the fallback. *)
Definition only_memory_collected (st : SystemStats) : Prop :=
  cpu_Usage (CPU st) = 0%float /\ cpu_Temp (CPU st) = 0%float /\
  LoadAvg (CPU st) = (0%float, 0%float, 0%float) /\
  (Cores (CPU st) = [] \/ Cores (CPU st) = repeat 0%float 8) /\
  GPU st = zero_GPUStats /\ Uptime st = 0 /\
  Swap (Memory st) = zero_SwapStats.


(* ================================================================== *)
(** ** Machine arithmetic *)
(* ================================================================== *)

Lemma two32_val : two32 = 4294967296.
Proof. reflexivity. Qed.

Lemma two63_val : two63 = 9223372036854775808.
Proof. reflexivity. Qed.

Lemma two64_val : two64 = 18446744073709551616.
Proof. reflexivity. Qed.

Ltac unfold_ranges :=
  unfold in_u32, in_u64 in *;
  rewrite ?two32_val, ?two63_val, ?two64_val in *.

Lemma uint64_small {z} : in_u64 z -> uint64 z = z.
Proof. intros Hz. unfold uint64. apply Z.mod_small. exact Hz. Qed.

Lemma uint64_range z : in_u64 (uint64 z).
Proof.
  unfold uint64, in_u64. apply Z.mod_pos_bound. rewrite two64_val. lia.
Qed.

Lemma uint32_range z : in_u32 (uint32 z).
Proof.
  unfold uint32, in_u32. apply Z.mod_pos_bound. rewrite two32_val. lia.
Qed.

Lemma in_u32_u64 {z} : in_u32 z -> in_u64 z.
Proof. unfold_ranges. lia. Qed.

Lemma uint64_wrap_neg {z} : - two64 <= z < 0 -> uint64 z = z + two64.
Proof.
  intros Hz. unfold uint64.
  rewrite <- (Z.mod_add z 1 two64) by (rewrite two64_val; lia).
  apply Z.mod_small. lia.
Qed.

Lemma int64_small {z} : - two63 <= z < two63 -> int64 z = z.
Proof.
  intros Hz. unfold int64. rewrite Z.mod_small; unfold_ranges; lia.
Qed.

(** A [float64] quotient by zero, scaled by 100, is a NaN or an
    infinity: never zero. *)
Lemma div_zero_times_100 (x : float) : (x / 0 * 100)%float <> 0%float.
Proof.
  intros H. apply (f_equal Prim2SF) in H.
  rewrite mul_spec, div_spec in H.
  change (Prim2SF 0) with (S754_zero false) in H.
  change (Prim2SF 100) with (S754_finite false 7036874417766400 (-46)) in H.
  destruct (Prim2SF x) as [s | s | | s m e]; cbn in H; discriminate.
Qed.

Lemma gtb_true x y : (x >? y) = true <-> y < x.
Proof. rewrite Z.gtb_ltb. apply Z.ltb_lt. Qed.

Lemma gtb_false x y : (x >? y) = false <-> x <= y.
Proof. rewrite Z.gtb_ltb. apply Z.ltb_ge. Qed.

(* ================================================================== *)
(** ** Page arithmetic *)
(* ================================================================== *)

Lemma GetVMStatisticsCGO_wf h v :
  GetVMStatisticsCGO h = (Some v, nil_error) -> wf_vm v.
Proof.
  unfold GetVMStatisticsCGO. destruct (getVMStats h) as [ret c].
  destruct (negb (ret =? 0)); [discriminate|].
  intros H. injection H as <-.
  constructor; cbn; apply uint32_range.
Qed.

(** The unsigned evaluation agrees with the signed figure modulo 2^64. *)
Lemma usedPages_sum_mod {v} :
  wf_vm v -> usedPages_sum v = uint64 (spec_usedPages v).
Proof.
  intros [Hf Ha Hi Hw Hp Hs Hc He].
  unfold usedPages_sum, spec_usedPages, add64, sub64.
  assert (H0 : uint64 0 = 0) by reflexivity. rewrite H0. clear H0.
  rewrite !(uint64_small (in_u32_u64 Ha)), !(uint64_small (in_u32_u64 Hi)),
    !(uint64_small (in_u32_u64 Hw)), !(uint64_small (in_u32_u64 Hs)),
    !(uint64_small (in_u32_u64 Hc)), !(uint64_small (in_u32_u64 Hp)),
    !(uint64_small (in_u32_u64 He)).
  rewrite (uint64_small (z := 0 + ActiveCount v)) by (unfold_ranges; lia).
  rewrite (uint64_small (z := 0 + ActiveCount v + InactiveCount v))
    by (unfold_ranges; lia).
  rewrite (uint64_small (z := 0 + ActiveCount v + InactiveCount v + WireCount v))
    by (unfold_ranges; lia).
  rewrite (uint64_small
             (z := 0 + ActiveCount v + InactiveCount v + WireCount v
                   + SpeculativeCount v)) by (unfold_ranges; lia).
  rewrite (uint64_small
             (z := 0 + ActiveCount v + InactiveCount v + WireCount v
                   + SpeculativeCount v + CompressorPageCount v))
    by (unfold_ranges; lia).
  unfold uint64. rewrite Zminus_mod_idemp_l.
  apply (f_equal (fun z => z mod two64)). lia.
Qed.

Lemma spec_usedPages_bounds {v} :
  wf_vm v -> - (2 * two32) < spec_usedPages v < 5 * two32.
Proof.
  intros [Hf Ha Hi Hw Hp Hs Hc He]. unfold spec_usedPages.
  unfold_ranges. lia.
Qed.

Lemma usedPages_sum_nonneg {v} :
  wf_vm v -> 0 <= spec_usedPages v -> usedPages_sum v = spec_usedPages v.
Proof.
  intros Hwf Hpos. rewrite (usedPages_sum_mod Hwf).
  apply uint64_small. pose proof (spec_usedPages_bounds Hwf).
  unfold_ranges. lia.
Qed.

Lemma usedPages_sum_underflow {v} :
  wf_vm v -> spec_usedPages v < 0 ->
  usedPages_sum v = spec_usedPages v + two64.
Proof.
  intros Hwf Hneg. rewrite (usedPages_sum_mod Hwf).
  apply uint64_wrap_neg. pose proof (spec_usedPages_bounds Hwf).
  unfold_ranges. lia.
Qed.

Lemma freePages_eq {v} : wf_vm v -> freePages v = FreeCount v.
Proof.
  intros Hwf. unfold freePages. apply uint64_small, in_u32_u64, Hwf.
Qed.

Lemma div64_returned {x y q} :
  div64 x y = Returned q -> y <> 0 /\ q = x / y.
Proof.
  unfold div64. destruct (Z.eqb_spec y 0); [discriminate|].
  intros H. injection H as <-. split; [assumption | reflexivity].
Qed.

Lemma totalPages_bounds {physmem pageSize} :
  in_u64 physmem -> in_u64 pageSize -> pageSize <> 0 ->
  0 <= physmem / pageSize /\ physmem / pageSize * pageSize <= physmem.
Proof.
  intros Hm Hp Hnz. unfold_ranges. split.
  - apply Z.div_pos; lia.
  - rewrite Z.mul_comm. apply Z.mul_div_le. lia.
Qed.

Lemma availablePages_le {totalPages} v :
  0 <= totalPages -> 0 <= availablePages totalPages v <= totalPages.
Proof.
  intros Ht. unfold availablePages.
  set (a := add64 _ _).
  assert (Ha : in_u64 a) by apply uint64_range.
  destruct (a >? totalPages) eqn:E.
  - lia.
  - apply gtb_false in E. unfold in_u64 in Ha. lia.
Qed.

(** Where a page count is at most [totalPages], its conversion to bytes
    does not wrap and stays below the physical memory. *)
Lemma pages_to_bytes_le {physmem pageSize n} :
  in_u64 physmem -> in_u64 pageSize -> pageSize <> 0 ->
  0 <= n <= physmem / pageSize ->
  mul64 n pageSize = n * pageSize /\ n * pageSize <= physmem.
Proof.
  intros Hm Hp Hnz Hn.
  destruct (totalPages_bounds Hm Hp Hnz) as [Ht Hle].
  assert (Hb : 0 <= n * pageSize <= physmem).
  { unfold_ranges. split; [nia|].
    apply Z.le_trans with (physmem / pageSize * pageSize); [nia | exact Hle]. }
  split; [| lia].
  unfold mul64. apply uint64_small. unfold_ranges. lia.
Qed.

(** The shape of every result of [memStats_of]. *)
Lemma memStats_of_returned {physmem pageSize v ms} :
  memStats_of physmem pageSize v = Returned ms ->
  pageSize <> 0 /\
  Total ms = physmem /\
  Used ms = mul64 (usedPages (physmem / pageSize) v) pageSize /\
  Available ms = mul64 (availablePages (physmem / pageSize) v) pageSize /\
  Usage ms = (float64_of_uint64 (Used ms) / float64_of_uint64 (Total ms)
              * 100)%float.
Proof.
  unfold memStats_of. destruct (div64 physmem pageSize) as [q|r] eqn:E;
    cbn [bind collectSwapStats]; [| discriminate].
  apply div64_returned in E as [Hnz ->].
  intros H. apply (f_equal (fun o => match o with
                                     | Returned x => x
                                     | Panicked _ => ms
                                     end)) in H.
  subst ms. cbn [Total Used Available Usage]. repeat split; assumption.
Qed.

(** [memStats_of] returns whenever the page size is not zero. *)
Lemma memStats_of_total physmem pageSize v :
  pageSize <> 0 -> exists ms, memStats_of physmem pageSize v = Returned ms.
Proof.
  intros Hnz. unfold memStats_of, div64.
  destruct (Z.eqb_spec pageSize 0); [contradiction|].
  cbn. eexists. reflexivity.
Qed.

(** The second guard does its work on every input: [Available] never
    exceeds [Total]. *)
Lemma Available_le_Total physmem pageSize v ms :
  in_u64 physmem -> in_u64 pageSize ->
  memStats_of physmem pageSize v = Returned ms ->
  Available ms <= Total ms.
Proof.
  intros Hm Hp H.
  apply memStats_of_returned in H as (Hnz & -> & _ & -> & _).
  destruct (totalPages_bounds Hm Hp Hnz) as [Ht _].
  pose proof (availablePages_le v Ht) as Ha.
  destruct (pages_to_bytes_le Hm Hp Hnz Ha) as [-> Hle]. exact Hle.
Qed.

(** The first guard, where nothing wraps: the signed figure is not
    negative and the free pages fit in the total. *)
Lemma usedPages_le_total {totalPages v} :
  wf_vm v -> 0 <= spec_usedPages v -> freePages v <= totalPages ->
  0 <= usedPages totalPages v <= totalPages.
Proof.
  intros Hwf Hpos Hfree. unfold usedPages.
  rewrite (usedPages_sum_nonneg Hwf Hpos).
  pose proof (spec_usedPages_bounds Hwf) as Hb.
  pose proof (freePages_eq Hwf) as Hf.
  assert (Hfr : in_u32 (FreeCount v)) by apply Hwf.
  assert (Hadd : add64 (spec_usedPages v) (freePages v)
                 = spec_usedPages v + freePages v).
  { unfold add64. apply uint64_small. unfold_ranges. lia. }
  rewrite Hadd.
  destruct (_ >? _) eqn:E.
  - unfold sub64. rewrite uint64_small; unfold_ranges; lia.
  - apply gtb_false in E. unfold_ranges. lia.
Qed.

Lemma Used_le_Total_without_wrap physmem pageSize v ms :
  in_u64 physmem -> in_u64 pageSize -> wf_vm v ->
  0 <= spec_usedPages v -> freePages v <= physmem / pageSize ->
  memStats_of physmem pageSize v = Returned ms ->
  Used ms <= Total ms.
Proof.
  intros Hm Hp Hwf Hpos Hfree H.
  apply memStats_of_returned in H as (Hnz & -> & -> & _).
  pose proof (usedPages_le_total Hwf Hpos Hfree) as Hu.
  destruct (pages_to_bytes_le Hm Hp Hnz Hu) as [-> Hle]. exact Hle.
Qed.

(** When the guard fires and the free pages fit in the total, the
    subtraction is exact. *)
Lemma usedPages_clamp_exact totalPages v :
  in_u64 totalPages ->
  add64 (usedPages_sum v) (freePages v) > totalPages ->
  freePages v <= totalPages ->
  usedPages totalPages v = totalPages - freePages v.
Proof.
  intros Ht Hgt Hfree. unfold usedPages.
  destruct (_ >? _) eqn:E.
  - unfold sub64. apply uint64_small.
    pose proof (uint64_range (FreeCount v)) as Hf. fold (freePages v) in Hf.
    unfold_ranges. lia.
  - apply gtb_false in E. lia.
Qed.

(** When the free pages exceed the total, the subtraction wraps. *)
Lemma usedPages_clamp_wraps totalPages v :
  in_u64 totalPages ->
  add64 (usedPages_sum v) (freePages v) > totalPages ->
  totalPages < freePages v ->
  usedPages totalPages v = totalPages - freePages v + two64.
Proof.
  intros Ht Hgt Hfree. unfold usedPages.
  destruct (_ >? _) eqn:E.
  - unfold sub64. apply uint64_wrap_neg.
    pose proof (uint64_range (FreeCount v)) as Hf. fold (freePages v) in Hf.
    unfold_ranges. lia.
  - apply gtb_false in E. lia.
Qed.

(* ================================================================== *)
(** ** Collection *)
(* ================================================================== *)

Lemma getPageSize_nil h : snd (getPageSize h) = nil_error.
Proof.
  unfold getPageSize.
  destruct (SysctlUint64 h "hw.pagesize") as [pageSize [e|]];
    [| reflexivity].
  destruct (SysctlUint64 h "vm.pagesize") as [vmPageSize [e'|]];
    reflexivity.
Qed.

(** [collectMemoryStats] as a case analysis on the three queries. *)
Lemma collectMemoryStats_cases h :
  (exists e, snd (SysctlUint64 h "hw.memsize") = Some e /\
     collectMemoryStats h =
       Returned (zero_MemoryStats,
                 Some ("failed to get physical memory: " +++ e)))
  \/ (snd (SysctlUint64 h "hw.memsize") = None /\
      exists e, snd (getVMStatistics64 h) = Some e /\
        collectMemoryStats h =
          Returned (zero_MemoryStats,
                    Some ("failed to get VM statistics: " +++ e)))
  \/ (snd (SysctlUint64 h "hw.memsize") = None /\
      exists v, getVMStatistics64 h = (Some v, nil_error) /\
        collectMemoryStats h =
          do memStats <- memStats_of (fst (SysctlUint64 h "hw.memsize"))
                                     (fst (getPageSize h)) v;
          Returned (memStats, nil_error)).
Proof.
  unfold collectMemoryStats.
  destruct (SysctlUint64 h "hw.memsize") as [physmem [e|]]; cbn [fst snd].
  { left. exists e. split; reflexivity. }
  right.
  pose proof (getPageSize_nil h) as Hnil.
  destruct (getPageSize h) as [pageSize err]. cbn in Hnil. subst err.
  cbn [fst snd].
  assert (Hvm : getVMStatistics64 h = GetVMStatisticsCGO h) by reflexivity.
  unfold GetVMStatisticsCGO in Hvm.
  destruct (getVMStats h) as [ret c].
  destruct (negb (ret =? 0)); rewrite Hvm; cbn [fst snd].
  - left. split; [reflexivity|]. eexists. split; reflexivity.
  - right. split; [reflexivity|]. eexists. split; reflexivity.
Qed.

(** A collection panics exactly when every query succeeds and the page
    size is reported as zero. *)
Lemma collectMemoryStats_panics h :
  (exists r, collectMemoryStats h = Panicked r) <->
  (snd (SysctlUint64 h "hw.memsize") = None /\
   snd (getVMStatistics64 h) = None /\ fst (getPageSize h) = 0).
Proof.
  destruct (collectMemoryStats_cases h)
    as [(e & He & Hc) | [(Hm & e & He & Hc) | (Hm & v & Hv & Hc)]].
  - split.
    + intros [r Hr]. congruence.
    + intros (Hm & _). congruence.
  - split.
    + intros [r Hr]. congruence.
    + intros (_ & Hn & _). congruence.
  - rewrite Hc, Hv. unfold memStats_of, div64. cbn [snd].
    destruct (Z.eqb_spec (fst (getPageSize h)) 0) as [Hz|Hz]; cbn.
    + split; [intros _; auto | intros _; eexists; reflexivity].
    + split; [intros [r Hr]; discriminate | intros (_ & _ & Hp); contradiction].
Qed.


(* ================================================================== *)
(** ** Properties of the normalisation *)
(* ================================================================== *)

Ltac solve_wf :=
  constructor; unfold in_u32; rewrite two32_val; cbn; lia.

(** C1. The claim: for every input with [freePages <= totalPages],
    normalisation gives [Used <= Total] and [Available <= Total].
    The source does not keep the first bound. With one purgeable page,
    one free page and no other page, on a machine of 1000 pages of 4096
    bytes, the unsigned sum of line 101 wraps to 2^64 - 1, the guard of
    line 113 adds the free page, wraps to 0 and does not fire, and
    [Used] is 2^64 - 4096 bytes against a [Total] of 4096000.
    ([Available <= Total] holds on every input: [Available_le_Total];
    [Used <= Total] holds where the signed figure is not negative:
    [Used_le_Total_without_wrap].) *)
Theorem Used_exceeds_Total_after_underflow :
  let v := pages 1 0 0 0 1 0 0 0 in
  wf_vm v /\
  freePages v <= 4096000 / 4096 /\
  usedPages_sum v = two64 - 1 /\
  add64 (usedPages_sum v) (freePages v) = 0 /\
  exists ms,
    collectMemoryStats (host_ok 4096000 4096 v) = Returned (ms, nil_error) /\
    Total ms = 4096000 /\
    Used ms = two64 - 4096 /\
    Available ms = 2 * 4096 /\
    ~ Used ms <= Total ms.
Proof.
  cbv zeta. split; [solve_wf|].
  split; [vm_compute; discriminate|].
  split; [reflexivity|]. split; [reflexivity|].
  eexists. split; [vm_compute; reflexivity|].
  cbn [Total Used Available]. split; [reflexivity|].
  split; [reflexivity|]. split; [reflexivity|]. lia.
Qed.

(** C2. The claim: when the used and free pages together exceed the
    total, the guard sets [usedPages] to [totalPages - freePages], and
    to 0 when [freePages > totalPages]. The source subtracts in
    [uint64] without looking at the sign: with two free pages on a
    machine of one page the guard fires (0 + 2 > 1) and [usedPages]
    becomes 1 - 2 = 2^64 - 1, not 0, and [Used] 2^64 - 4096 bytes.
    (The subtraction is exact when [freePages <= totalPages]:
    [usedPages_clamp_exact]; it wraps on every input with
    [freePages > totalPages]: [usedPages_clamp_wraps].) *)
Theorem usedPages_wraps_when_free_exceeds_total :
  let v := pages 2 0 0 0 0 0 0 0 in
  let totalPages := 4096 / 4096 in
  wf_vm v /\
  totalPages < freePages v /\
  add64 (usedPages_sum v) (freePages v) > totalPages /\
  usedPages totalPages v = two64 - 1 /\
  usedPages totalPages v <> 0 /\
  exists ms,
    collectMemoryStats (host_ok 4096 4096 v) = Returned (ms, nil_error) /\
    Total ms = 4096 /\
    Used ms = two64 - 4096.
Proof.
  cbv zeta. split; [solve_wf|].
  split; [vm_compute; reflexivity|].
  split; [vm_compute; reflexivity|].
  split; [reflexivity|].
  split; [vm_compute; discriminate|].
  eexists. split; [vm_compute; reflexivity|].
  cbn. split; reflexivity.
Qed.

(** With no physical memory reported, the percentage is the quotient
    by the float zero: nothing in the source tests [Total]. *)
Lemma Usage_when_Total_zero pageSize v {ms} :
  memStats_of 0 pageSize v = Returned ms ->
  Usage ms = (float64_of_uint64 (Used ms) / 0 * 100)%float.
Proof.
  intros H. apply memStats_of_returned in H as (_ & Ht & _ & _ & ->).
  rewrite Ht. reflexivity.
Qed.

(** On every input with no physical memory the percentage differs
    from zero. *)
Lemma Usage_never_zero_when_Total_zero pageSize v ms :
  memStats_of 0 pageSize v = Returned ms -> Usage ms <> 0%float.
Proof.
  intros H. rewrite (Usage_when_Total_zero _ _ H).
  apply div_zero_times_100.
Qed.

(** C3. The claim: with [Total = 0] the percentage is 0 and no division
    faults; otherwise it is [Used / Total * 100]. The source divides
    the two [float64] values without a test (line 131), which faults
    on no input but gives NaN for 0 / 0 and +Inf for a positive [Used]:
    on a host reporting no physical memory and no page at all the
    percentage is NaN, and with the counters of the end-to-end example
    it is +Inf. (The formula itself is [memStats_of_returned]; the
    percentage differs from 0 on every input with [Total = 0]:
    [Usage_never_zero_when_Total_zero].) *)
Theorem Usage_not_zero_when_Total_zero :
  (exists ms,
     collectMemoryStats (host_ok 0 4096 (pages 0 0 0 0 0 0 0 0))
       = Returned (ms, nil_error) /\
     Total ms = 0 /\ Used ms = 0 /\
     Usage ms = nan /\ Usage ms <> 0%float) /\
  (exists ms,
     collectMemoryStats (host_ok 0 4096 vm_example)
       = Returned (ms, nil_error) /\
     Total ms = 0 /\
     Usage ms = infinity /\ Usage ms <> 0%float).
Proof.
  split; eexists; (split; [vm_compute; reflexivity|]); cbn;
    repeat split; try reflexivity; vm_compute; discriminate.
Qed.

(** C7. The claim: on every input the figure first assigned to
    [usedPages] is the signed value of active + inactive + wired +
    speculative + compressed - purgeable - external, the formula the
    comment of line 100 gives. The source subtracts in [uint64] with
    no test for underflow: with one purgeable page and no other page
    the signed value is -1 and the source holds 2^64 - 1. (The two
    agree whenever the signed value is not negative:
    [usedPages_sum_signed]; on every input the source's figure is the
    signed value modulo 2^64: [usedPages_sum_mod]. The same underflow
    is what breaks [Used <= Total] in C1.) *)
Theorem usedPages_sum_not_signed :
  let v := pages 0 0 0 0 1 0 0 0 in
  wf_vm v /\
  spec_usedPages v = -1 /\
  usedPages_sum v = 18446744073709551615 /\
  usedPages_sum v <> spec_usedPages v.
Proof.
  cbv zeta. split; [solve_wf|].
  split; [reflexivity|]. split; [reflexivity|].
  vm_compute. discriminate.
Qed.

(** Where the formula holds. On every input whose signed value active
    + inactive + wired + speculative + compressed - purgeable -
    external is not negative, the figure first assigned to [usedPages]
    is that value: the sum of the five counters reduced by the
    purgeable and the external pages. *)
Theorem usedPages_sum_signed v :
  wf_vm v ->
  0 <= spec_usedPages v ->
  usedPages_sum v = spec_usedPages v /\
  usedPages_sum v =
    (ActiveCount v + InactiveCount v + WireCount v + SpeculativeCount v
     + CompressorPageCount v)
    - (PurgeableCount v + ExternalPageCount v) /\
  usedPages_sum v <=
    ActiveCount v + InactiveCount v + WireCount v + SpeculativeCount v
    + CompressorPageCount v.
Proof.
  intros Hwf Hpos. rewrite (usedPages_sum_nonneg Hwf Hpos).
  destruct Hwf as [Hf Ha Hi Hw Hp Hs Hc He].
  unfold spec_usedPages, in_u32 in *. repeat split; lia.
Qed.

Lemma usedPages_sum_signed_witness :
  usedPages_sum vm_example = spec_usedPages vm_example /\
  usedPages_sum vm_example = (100 + 50 + 30 + 5 + 10) - (20 + 5) /\
  usedPages_sum vm_example <= 100 + 50 + 30 + 5 + 10.
Proof.
  apply (@usedPages_sum_signed vm_example).
  - solve_wf.
  - vm_compute. discriminate.
Defined.

(** C8. The end-to-end example: counters active 100, inactive 50, wired
    30, speculative 5, compressed 10, purgeable 20, external 5, free
    200, pages of 4096 bytes and 4096 * 1000 bytes of memory give 170
    used pages with the guard not firing (370 <= 1000), 270 available
    pages, [Used = 170 * 4096], [Available = 270 * 4096] and a
    percentage of exactly 17. *)
Theorem end_to_end_example :
  let v := vm_example in
  let pageSize := 4096 in
  let physmem := 4096 * 1000 in
  let totalPages := physmem / pageSize in
  v = pages 200 100 50 30 20 5 10 5 /\
  totalPages = 1000 /\
  usedPages_sum v = 100 + 50 + 30 + 5 + 10 - 20 - 5 /\
  usedPages_sum v = 170 /\
  add64 (usedPages_sum v) (freePages v) = 370 /\
  (add64 (usedPages_sum v) (freePages v) >? totalPages) = false /\
  usedPages totalPages v = 170 /\
  availablePages totalPages v = 270 /\
  collectMemoryStats (host_ok physmem pageSize v) =
    Returned ({| Total := 4096 * 1000;
                 Used := 170 * 4096;
                 Available := 270 * 4096;
                 Usage := 17%float;
                 Swap := zero_SwapStats |}, nil_error).
Proof.
  cbv zeta. repeat split; vm_compute; reflexivity.
Qed.

(** C9. [getPageSize] returns a nil error on every host; when both the
    [hw.pagesize] and the [vm.pagesize] queries fail it returns 4096;
    and an error returned by [collectMemoryStats] is never the
    page-size one: it comes from the [hw.memsize] query or from the VM
    statistics. *)
Theorem getPageSize_never_fails h :
  snd (getPageSize h) = nil_error /\
  (snd (SysctlUint64 h "hw.pagesize") <> nil_error ->
   snd (SysctlUint64 h "vm.pagesize") <> nil_error ->
   getPageSize h = (4096, nil_error)) /\
  (forall ms e,
     collectMemoryStats h = Returned (ms, Some e) ->
     (exists e0, snd (SysctlUint64 h "hw.memsize") = Some e0 /\
                 e = "failed to get physical memory: " +++ e0) \/
     (exists e0, snd (getVMStatistics64 h) = Some e0 /\
                 e = "failed to get VM statistics: " +++ e0)).
Proof.
  split; [apply getPageSize_nil|]. split.
  - unfold getPageSize, nil_error.
    destruct (SysctlUint64 h "hw.pagesize") as [pageSize [e|]]; cbn;
      [| intros H; contradiction].
    destruct (SysctlUint64 h "vm.pagesize") as [vmPageSize [e'|]]; cbn;
      [reflexivity | intros _ H; contradiction].
  - intros ms e H.
    destruct (collectMemoryStats_cases h)
      as [(e0 & He & Hc) | [(Hm & e0 & He & Hc) | (Hm & v & Hv & Hc)]].
    + left. exists e0. split; [assumption|]. congruence.
    + right. exists e0. split; [assumption|]. congruence.
    + rewrite Hc in H.
      destruct (memStats_of _ _ v); cbn in H; discriminate.
Qed.

Lemma getPageSize_never_fails_witness :
  getPageSize (host_no_pagesize 4096000 vm_example) = (4096, nil_error).
Proof.
  apply (proj1 (proj2 (getPageSize_never_fails
                         (host_no_pagesize 4096000 vm_example))));
    cbn; discriminate.
Defined.

(* ================================================================== *)
(** ** The state machine *)
(* ================================================================== *)

Lemma rate_ok_bounds r :
  rate_ok r -> 100 * Millisecond <= r <= 5000 * Millisecond.
Proof. intros (k & Hk & ->). unfold Millisecond. lia. Qed.

Lemma rate_ok_Second : rate_ok Second.
Proof. exists 10. split; [lia | reflexivity]. Qed.

(** What the key handler does to the rate, for a rate of [k] steps. *)
Lemma Update_key_faster m {key k} :
  key = "+"%string \/ key = "="%string ->
  1 <= k <= 50 -> refreshRate m = k * (100 * Millisecond) ->
  Update_key m key =
    (if k =? 1 then m
     else set_refreshRate m ((k - 1) * (100 * Millisecond)), None).
Proof.
  intros Hkey Hk Hr. unfold Update_key.
  assert (Hsel : ((key =? "ctrl+c") || (key =? "q") = false
                  /\ (key =? "1") = false /\ (key =? "2") = false
                  /\ (key =? "3") = false /\ (key =? "4") = false
                  /\ (key =? "+") || (key =? "=") = true)%string).
  { destruct Hkey as [-> | ->]; repeat split; reflexivity. }
  destruct Hsel as (-> & -> & -> & -> & -> & ->).
  rewrite Hr. destruct (Z.eqb_spec k 1) as [-> | Hne].
  - reflexivity.
  - destruct (_ >? _) eqn:E.
    + rewrite int64_small by (unfold Millisecond; rewrite two63_val; lia).
      do 2 f_equal. lia.
    + apply gtb_false in E. unfold Millisecond in E. lia.
Qed.

Lemma Update_key_slower m {key k} :
  key = "-"%string \/ key = "_"%string ->
  1 <= k <= 50 -> refreshRate m = k * (100 * Millisecond) ->
  Update_key m key =
    (if k =? 50 then m
     else set_refreshRate m ((k + 1) * (100 * Millisecond)), None).
Proof.
  intros Hkey Hk Hr. unfold Update_key.
  assert (Hsel : ((key =? "ctrl+c") || (key =? "q") = false
                  /\ (key =? "1") = false /\ (key =? "2") = false
                  /\ (key =? "3") = false /\ (key =? "4") = false
                  /\ (key =? "+") || (key =? "=") = false
                  /\ (key =? "-") || (key =? "_") = true)%string).
  { destruct Hkey as [-> | ->]; repeat split; reflexivity. }
  destruct Hsel as (-> & -> & -> & -> & -> & -> & ->).
  rewrite Hr. destruct (Z.eqb_spec k 50) as [-> | Hne].
  - reflexivity.
  - destruct (_ <? _) eqn:E.
    + rewrite int64_small by (unfold Millisecond; rewrite two63_val; lia).
      do 2 f_equal. lia.
    + apply Z.ltb_ge in E. unfold Millisecond, Second in E. lia.
Qed.

(** The key handler keeps the rate on the 100ms grid between the two
    bounds. *)
Lemma Update_key_rate {m} key :
  rate_ok (refreshRate m) -> rate_ok (refreshRate (fst (Update_key m key))).
Proof.
  intros Hok. pose proof Hok as (k & Hk & Hr). unfold Update_key.
  repeat match goal with
         | |- context [if ?b then _ else _] =>
             lazymatch b with
             | (_ >? _) => fail
             | (_ <? _) => fail
             | _ => destruct b; cbn [fst refreshRate set_quit set_viewMode];
                    try assumption
             end
         end.
  - destruct (_ >? _) eqn:E; cbn; [| assumption].
    apply gtb_true in E. exists (k - 1). rewrite Hr in *.
    unfold Millisecond in *. split; [lia|].
    rewrite int64_small by (rewrite two63_val; lia). lia.
  - destruct (_ <? _) eqn:E; cbn; [| assumption].
    apply Z.ltb_lt in E. exists (k + 1). rewrite Hr in *.
    unfold Millisecond, Second in *. split; [lia|].
    rewrite int64_small by (rewrite two63_val; lia). lia.
Qed.

Lemma Update_rate {h m msg m' c} :
  rate_ok (refreshRate m) -> Update h m msg = Returned (m', c) ->
  rate_ok (refreshRate m').
Proof.
  intros Hok. destruct msg as [w hgt | t | key |]; cbn.
  - intros H. injection H as <- _. exact Hok.
  - destruct (collectSystemStats h) as [[newStats [e|]]|r]; cbn;
      try discriminate; intros H; injection H as <- _; exact Hok.
  - intros H. pose proof (Update_key_rate key Hok) as Hk.
    injection H as H. rewrite H in Hk. exact Hk.
  - intros H. injection H as <- _. exact Hok.
Qed.

Lemma initialModel_rate {h now m} :
  initialModel h now = Returned m -> refreshRate m = Second.
Proof.
  unfold initialModel.
  destruct (collectSystemStats h) as [[st [e|]]|r]; cbn;
    try discriminate; intros H; injection H as <-; reflexivity.
Qed.

Lemma reachable_rate m : reachable m -> rate_ok (refreshRate m).
Proof.
  induction 1 as [h now m Hinit | h msg m m' c Hreach IH Hstep].
  - rewrite (initialModel_rate Hinit). apply rate_ok_Second.
  - exact (Update_rate IH Hstep).
Qed.

(** [n] such events take a rate of [k] steps to [max 1 (k - n)] steps. *)
Lemma run_decrements events : forall m k,
  Forall decrement_event events ->
  1 <= k <= 50 -> refreshRate m = k * (100 * Millisecond) ->
  exists m', run m events = Returned m' /\
    refreshRate m' =
      Z.max 1 (k - Z.of_nat (length events)) * (100 * Millisecond).
Proof.
  induction events as [| [h msg] rest IH]; intros m k Hall Hk Hr.
  - exists m. split; [reflexivity|]. cbn [length Z.of_nat]. rewrite Hr.
    f_equal. lia.
  - inversion Hall as [| ? ? Hd Hrest]; subst.
    assert (Hkey : exists key, msg = KeyMsg key /\
                     (key = "+"%string \/ key = "="%string)).
    { destruct Hd as [Hd | Hd]; cbn in Hd; subst msg; eexists; split;
        try reflexivity; auto. }
    destruct Hkey as (key & -> & Hkey).
    cbn [run Update bind]. rewrite (Update_key_faster m Hkey Hk Hr).
    destruct (Z.eqb_spec k 1) as [-> | Hne].
    + destruct (IH m 1 Hrest Hk Hr) as (m' & Hrun & Hrate).
      exists m'. split; [exact Hrun|]. rewrite Hrate. f_equal.
      cbn [length]. lia.
    + destruct (IH (set_refreshRate m ((k - 1) * (100 * Millisecond)))
                  (k - 1) Hrest) as (m' & Hrun & Hrate);
        [lia | reflexivity |].
      exists m'. split; [exact Hrun|]. rewrite Hrate. f_equal.
      cbn [length]. lia.
Qed.

Lemma model1_initial :
  initialModel (host_ok (4096 * 1000) 4096 vm_example) 0 = Returned model1.
Proof. vm_compute. reflexivity. Qed.

Lemma Update_keeps_quit {h m msg m' c} :
  quit m = true -> Update h m msg = Returned (m', c) -> quit m' = true.
Proof.
  intros Hq. destruct msg as [w hgt | t | key |]; cbn.
  - intros H. injection H as <- _. exact Hq.
  - destruct (collectSystemStats h) as [[newStats [e|]]|r]; cbn;
      try discriminate; intros H; injection H as <- _; exact Hq.
  - unfold Update_key.
    repeat match goal with
           | |- context [if ?b then _ else _] => destruct b
           end;
      intros H; injection H as <- _; solve [reflexivity | exact Hq].
  - intros H. injection H as <- _. exact Hq.
Qed.

(** Only a tick can panic. *)
Lemma Update_panics_only_on_tick {h m msg r} :
  Update h m msg = Panicked r -> exists t, msg = TickMsg t.
Proof.
  destruct msg as [w hgt | t | key |]; cbn; try discriminate.
  intros _. exists t. reflexivity.
Qed.

(** Both branches of a tick occur. *)
Example tick_after_success :
  Update (host_ok (4096 * 1000) 4096 vm_example) model0 (TickMsg 5)
  = Returned (set_lastUpdate (set_stats model0 (stats model1)) 5,
              Some (Tick Second)).
Proof. vm_compute. reflexivity. Qed.

Example tick_after_failure :
  Update (host_vm_failure 4096 4096) model1 (TickMsg 5)
  = Returned
      (set_lastUpdate
         (set_lastError model1
            "Error collecting stats: failed to collect memory stats: failed to get VM statistics: host_statistics64 failed with error code: 5")
         5,
       Some (Tick Second)).
Proof. vm_compute. reflexivity. Qed.

(* ================================================================== *)
(** ** Properties of the state machine *)
(* ================================================================== *)

(** C4. On a tick at instant [t], in any state [m]: when the collection
    succeeds the stored stats become the collected ones and [lastError]
    the empty string; when it fails the stats stay those of [m] and
    [lastError] is the text "Error collecting stats: " followed by the
    error's, which is not empty; either way [lastUpdate] is [t], the
    other fields are those of [m], and the command returned is a tick
    after [m]'s refresh rate. (A collection that panics makes [Update]
    panic: there is then no state.) *)
Theorem Update_on_Tick h m t :
  match collectSystemStats h with
  | Returned (newStats, None) =>
      Update h m (TickMsg t) =
        Returned ({| stats := newStats;
                     viewMode := viewMode m;
                     refreshRate := refreshRate m;
                     lastUpdate := t;
                     width := width m;
                     height := height m;
                     quit := quit m;
                     lastError := EmptyString |},
                  Some (Tick (refreshRate m)))
  | Returned (_, Some e) =>
      Update h m (TickMsg t) =
        Returned ({| stats := stats m;
                     viewMode := viewMode m;
                     refreshRate := refreshRate m;
                     lastUpdate := t;
                     width := width m;
                     height := height m;
                     quit := quit m;
                     lastError := "Error collecting stats: " +++ e |},
                  Some (Tick (refreshRate m)))
      /\ "Error collecting stats: " +++ e <> EmptyString
  | Panicked r => Update h m (TickMsg t) = Panicked r
  end.
Proof.
  unfold Update.
  destruct (collectSystemStats h) as [[newStats [e|]]|r]; cbn.
  - split; [reflexivity | discriminate].
  - reflexivity.
  - reflexivity.
Qed.

(** C5. In every state reachable from the initial one (refresh rate of
    one second) the refresh rate lies between 100ms and 5000ms; a
    request for a shorter interval at 100ms and one for a longer
    interval at 5000ms return the state unchanged with no command; and
    20 consecutive requests for a shorter interval, starting at 1000ms,
    end at exactly 100ms. *)
Theorem refreshRate_stays_in_bounds :
  (forall m, reachable m ->
     100 * Millisecond <= refreshRate m <= 5000 * Millisecond) /\
  (forall h m key,
     key = "+"%string \/ key = "="%string ->
     refreshRate m = 100 * Millisecond ->
     Update h m (KeyMsg key) = Returned (m, None)) /\
  (forall h m key,
     key = "-"%string \/ key = "_"%string ->
     refreshRate m = 5000 * Millisecond ->
     Update h m (KeyMsg key) = Returned (m, None)) /\
  (forall m events,
     refreshRate m = 1000 * Millisecond ->
     length events = 20%nat -> Forall decrement_event events ->
     exists m', run m events = Returned m' /\
                refreshRate m' = 100 * Millisecond).
Proof.
  split; [| split; [| split]].
  - intros m Hm. apply rate_ok_bounds, reachable_rate, Hm.
  - intros h m key Hkey Hr. cbn.
    rewrite (@Update_key_faster m key 1 Hkey); [reflexivity | lia |].
    rewrite Hr. lia.
  - intros h m key Hkey Hr. cbn.
    rewrite (@Update_key_slower m key 50 Hkey); [reflexivity | lia |].
    rewrite Hr. lia.
  - intros m events Hr Hlen Hall.
    destruct (@run_decrements events m 10 Hall) as (m' & Hrun & Hrate);
      [lia | rewrite Hr; lia |].
    exists m'. split; [exact Hrun|]. rewrite Hrate, Hlen. reflexivity.
Qed.

Lemma refreshRate_stays_in_bounds_witness :
  100 * Millisecond
  <= refreshRate (set_refreshRate model1 (900 * Millisecond))
  <= 5000 * Millisecond.
Proof.
  apply (proj1 refreshRate_stays_in_bounds).
  apply (@reach_step (host_vm_failure 4096 4096) (KeyMsg "+") model1 _ None).
  - apply (@reach_init (host_ok (4096 * 1000) 4096 vm_example) 0).
    vm_compute. reflexivity.
  - vm_compute. reflexivity.
Defined.

(** C6, as stated, fails: in a state with [quit] set, a resize still
    changes the stored dimensions and the key [2] the view mode. *)
Lemma quit_state_fields_still_change :
  let m := set_quit model0 true in
  quit m = true /\
  Update (host_vm_failure 4096 4096) m (WindowSizeMsg 100 50)
    = Returned (set_height (set_width m 100) 50, None) /\
  ~ same_other_fields m (set_height (set_width m 100) 50) /\
  Update (host_vm_failure 4096 4096) m (KeyMsg "2")
    = Returned (set_viewMode m CPUDetailMode, None) /\
  ~ same_other_fields m (set_viewMode m CPUDetailMode).
Proof.
  cbv zeta. split; [reflexivity|]. split; [reflexivity|].
  split; [| split; [reflexivity|]].
  - intros (_ & _ & _ & _ & Hw & _). cbn in Hw. discriminate.
  - intros (_ & Hv & _). cbn in Hv. discriminate.
Qed.

(** C6, amended. From a state with [quit] set, every event that
    [Update] handles leaves [quit] set, and the view of the resulting
    state is the empty string, so nothing that happens afterwards shows
    in the output. [Update] does not look at [quit]: the other fields
    change as they do in a running session. *)
Theorem quit_stays_set_and_view_blank (F : GoFmt) h m msg :
  quit m = true ->
  match Update h m msg with
  | Returned (m', _) => quit m' = true /\ View m' = EmptyString
  | Panicked _ => exists t, msg = TickMsg t
  end.
Proof.
  intros Hq. destruct (Update h m msg) as [[m' c]|r] eqn:E.
  - pose proof (Update_keeps_quit Hq E) as Hq'.
    split; [exact Hq'|]. unfold View. rewrite Hq'. reflexivity.
  - exact (Update_panics_only_on_tick E).
Qed.

Lemma quit_stays_set_and_view_blank_witness :
  match Update (host_vm_failure 4096 4096) (set_quit model0 true)
               (WindowSizeMsg 100 50) with
  | Returned (m', _) => quit m' = true /\ @View silent_fmt m' = EmptyString
  | Panicked _ => exists t, WindowSizeMsg 100 50 = TickMsg t
  end.
Proof.
  apply (@quit_stays_set_and_view_blank silent_fmt). reflexivity.
Defined.

(** C10. In a state with [quit] set, [View] returns the empty string,
    whatever the other fields hold. *)
Theorem View_empty_when_quit (F : GoFmt) m :
  quit m = true -> View m = EmptyString.
Proof.
  intros Hq. unfold View. rewrite Hq. reflexivity.
Qed.

Lemma View_empty_when_quit_witness :
  @View silent_fmt
    (set_lastError (set_viewMode (set_quit model1 true) MemoryDetailMode)
                   "Error collecting stats: timeout")
  = EmptyString.
Proof.
  apply (@View_empty_when_quit silent_fmt). reflexivity.
Defined.

(* ================================================================== *)
(** ** Further properties of the collection *)
(* ================================================================== *)

Lemma availablePages_min {totalPages v} :
  wf_vm v -> 0 <= totalPages ->
  availablePages totalPages v =
    Z.min totalPages (FreeCount v + InactiveCount v + PurgeableCount v).
Proof.
  intros Hwf Ht. unfold availablePages.
  assert (Hf : in_u32 (FreeCount v)) by apply Hwf.
  assert (Hi : in_u32 (InactiveCount v)) by apply Hwf.
  assert (Hp : in_u32 (PurgeableCount v)) by apply Hwf.
  rewrite (freePages_eq Hwf), (uint64_small (in_u32_u64 Hi)),
    (uint64_small (in_u32_u64 Hp)).
  unfold add64.
  rewrite (@uint64_small (FreeCount v + InactiveCount v))
    by (unfold_ranges; lia).
  rewrite (@uint64_small (FreeCount v + InactiveCount v + PurgeableCount v))
    by (unfold_ranges; lia).
  destruct (_ >? _) eqn:E.
  - apply gtb_true in E. lia.
  - apply gtb_false in E. lia.
Qed.

Lemma usedPages_min {totalPages v} :
  wf_vm v -> 0 <= spec_usedPages v -> freePages v <= totalPages ->
  usedPages totalPages v =
    Z.min (spec_usedPages v) (totalPages - FreeCount v).
Proof.
  intros Hwf Hpos Hfree. unfold usedPages.
  rewrite (usedPages_sum_nonneg Hwf Hpos).
  pose proof (spec_usedPages_bounds Hwf) as Hb.
  pose proof (freePages_eq Hwf) as Hf. rewrite Hf in *.
  assert (Hfr : in_u32 (FreeCount v)) by apply Hwf.
  unfold add64, sub64.
  rewrite (@uint64_small (spec_usedPages v + FreeCount v))
    by (unfold_ranges; lia).
  destruct (_ >? _) eqn:E.
  - apply gtb_true in E.
    rewrite uint64_small by (unfold_ranges; lia). lia.
  - apply gtb_false in E. lia.
Qed.

(** What a successful collection went through. *)
Lemma collectMemoryStats_success {h ms} :
  collectMemoryStats h = Returned (ms, nil_error) ->
  exists v,
    snd (SysctlUint64 h "hw.memsize") = None /\
    getVMStatistics64 h = (Some v, nil_error) /\ wf_vm v /\
    memStats_of (fst (SysctlUint64 h "hw.memsize")) (fst (getPageSize h)) v
      = Returned ms.
Proof.
  intros H.
  destruct (collectMemoryStats_cases h)
    as [(e & He & Hc) | [(Hm & e & He & Hc) | (Hm & v & Hv & Hc)]].
  - rewrite Hc in H. discriminate.
  - rewrite Hc in H. discriminate.
  - exists v. split; [exact Hm|]. split; [exact Hv|].
    split; [exact (GetVMStatisticsCGO_wf h v Hv)|].
    rewrite Hc in H.
    destruct (memStats_of _ _ v) as [ms'|r]; cbn [bind] in H;
      [| discriminate].
    injection H as <-. reflexivity.
Qed.

(** X1. On every host whose memory size and page size are [uint64]
    values, a successful collection reports as [Available] the smaller
    of the total page count and free + inactive + purgeable pages,
    times the page size, without wrap-around, and this never exceeds
    [Total], which is the memory size the host reported. *)
Theorem collect_Available_is_clamped_sum h ms :
  in_u64 (fst (SysctlUint64 h "hw.memsize")) ->
  in_u64 (fst (getPageSize h)) ->
  collectMemoryStats h = Returned (ms, nil_error) ->
  exists v,
    getVMStatistics64 h = (Some v, nil_error) /\
    Total ms = fst (SysctlUint64 h "hw.memsize") /\
    Available ms =
      Z.min (fst (SysctlUint64 h "hw.memsize") / fst (getPageSize h))
            (FreeCount v + InactiveCount v + PurgeableCount v)
      * fst (getPageSize h) /\
    0 <= Available ms <= Total ms.
Proof.
  intros Hm Hp H.
  destruct (collectMemoryStats_success H) as (v & _ & Hv & Hwf & Hms).
  exists v. split; [exact Hv|].
  apply memStats_of_returned in Hms as (Hnz & Ht & _ & Ha & _).
  destruct (totalPages_bounds Hm Hp Hnz) as [Htp _].
  pose proof (availablePages_le v Htp) as Hle.
  destruct (pages_to_bytes_le Hm Hp Hnz Hle) as [Hmul Hb].
  rewrite Ha, Ht, Hmul, (availablePages_min Hwf Htp).
  rewrite (availablePages_min Hwf Htp) in Hb, Hle.
  split; [reflexivity|]. split; [reflexivity|].
  unfold in_u64 in Hp. split; [nia | exact Hb].
Qed.

Lemma collect_Available_is_clamped_sum_witness :
  exists v,
    getVMStatistics64 (host_ok 4096000 4096 vm_example) = (Some v, nil_error) /\
    Total (Memory (stats model1)) = 4096000 /\
    Available (Memory (stats model1)) =
      Z.min (4096000 / 4096)
            (FreeCount v + InactiveCount v + PurgeableCount v) * 4096 /\
    0 <= Available (Memory (stats model1))
      <= Total (Memory (stats model1)).
Proof.
  apply (@collect_Available_is_clamped_sum
           (host_ok 4096000 4096 vm_example) (Memory (stats model1))).
  - vm_compute. split; [discriminate | reflexivity].
  - vm_compute. split; [discriminate | reflexivity].
  - vm_compute. reflexivity.
Defined.

(** X2. Where nothing wraps (the signed used-page figure is not
    negative and the free pages fit in the total), a successful
    collection reports as [Used] the smaller of that figure and
    total - free pages, times the page size, and [Used] plus the free
    bytes does not exceed [Total]: the guard "used + free doesn't
    exceed total" does what its comment says. *)
Theorem collect_Used_is_clamped_figure h ms v :
  in_u64 (fst (SysctlUint64 h "hw.memsize")) ->
  in_u64 (fst (getPageSize h)) ->
  getVMStatistics64 h = (Some v, nil_error) ->
  collectMemoryStats h = Returned (ms, nil_error) ->
  0 <= spec_usedPages v ->
  FreeCount v <= fst (SysctlUint64 h "hw.memsize") / fst (getPageSize h) ->
  Used ms =
    Z.min (spec_usedPages v)
          (fst (SysctlUint64 h "hw.memsize") / fst (getPageSize h)
           - FreeCount v)
    * fst (getPageSize h) /\
  0 <= Used ms /\
  Used ms + FreeCount v * fst (getPageSize h) <= Total ms.
Proof.
  intros Hm Hp Hv H Hpos Hfree.
  destruct (collectMemoryStats_success H) as (v' & _ & Hv' & Hwf & Hms).
  rewrite Hv in Hv'. injection Hv' as <-.
  apply memStats_of_returned in Hms as (Hnz & Ht & Hu & _ & _).
  destruct (totalPages_bounds Hm Hp Hnz) as [Htp Hdiv].
  assert (Hfree' : freePages v
                   <= fst (SysctlUint64 h "hw.memsize") / fst (getPageSize h))
    by (rewrite (freePages_eq Hwf); exact Hfree).
  pose proof (usedPages_le_total Hwf Hpos Hfree') as Hle.
  destruct (pages_to_bytes_le Hm Hp Hnz Hle) as [Hmul Hb].
  rewrite Hu, Ht, Hmul, (usedPages_min Hwf Hpos Hfree').
  rewrite (usedPages_min Hwf Hpos Hfree') in Hle.
  assert (Hf : in_u32 (FreeCount v)) by apply Hwf.
  unfold in_u64, in_u32 in *.
  split; [reflexivity|]. split; [nia|].
  apply Z.le_trans
    with (fst (SysctlUint64 h "hw.memsize") / fst (getPageSize h)
          * fst (getPageSize h)); [nia | exact Hdiv].
Qed.

Lemma collect_Used_is_clamped_figure_witness :
  Used (Memory (stats model1)) =
    Z.min (spec_usedPages vm_example) (4096000 / 4096 - 200) * 4096 /\
  0 <= Used (Memory (stats model1)) /\
  Used (Memory (stats model1)) + 200 * 4096
    <= Total (Memory (stats model1)).
Proof.
  apply (@collect_Used_is_clamped_figure
           (host_ok 4096000 4096 vm_example) (Memory (stats model1))
           vm_example).
  - vm_compute. split; [discriminate | reflexivity].
  - vm_compute. split; [discriminate | reflexivity].
  - vm_compute. reflexivity.
  - vm_compute. reflexivity.
  - vm_compute. discriminate.
  - vm_compute. discriminate.
Defined.

Lemma getVMStatistics64_cases h :
  (fst (getVMStats h) <> 0 /\
   getVMStatistics64 h =
     (None, Some ("host_statistics64 failed with error code: "
                  +++ fmt_d (fst (getVMStats h)))))
  \/ (fst (getVMStats h) = 0 /\
      exists v, getVMStatistics64 h = (Some v, nil_error)).
Proof.
  unfold getVMStatistics64, GetVMStatisticsCGO.
  destruct (getVMStats h) as [ret c]. cbn [fst].
  destruct (Z.eqb_spec ret 0) as [-> | Hne]; cbn [negb].
  - right. split; [reflexivity|]. eexists. reflexivity.
  - left. split; [exact Hne | reflexivity].
Qed.

(** X3. The three outcomes of [collectSystemStats], by what the host
    answers. It returns an error exactly when the [hw.memsize] query
    fails or [host_statistics64] returns a non-zero code (the first
    wins when both fail); the error text names the failed step and
    carries the underlying error or the code, and the stats returned
    with it are all zero. It returns stats with no error exactly when
    both succeed and the page size is not zero, and panics exactly when
    both succeed and the page size is zero. *)
Theorem collectSystemStats_outcomes h :
  match collectSystemStats h with
  | Returned (st, Some e) =>
      st = zero_SystemStats /\
      ((exists e0, snd (SysctlUint64 h "hw.memsize") = Some e0 /\
          e = "failed to collect memory stats: failed to get physical memory: "
              +++ e0)
       \/ (snd (SysctlUint64 h "hw.memsize") = None /\
           fst (getVMStats h) <> 0 /\
           e = "failed to collect memory stats: failed to get VM statistics: host_statistics64 failed with error code: "
               +++ fmt_d (fst (getVMStats h))))
  | Returned (st, None) =>
      snd (SysctlUint64 h "hw.memsize") = None /\
      fst (getVMStats h) = 0 /\ fst (getPageSize h) <> 0 /\
      Total (Memory st) = fst (SysctlUint64 h "hw.memsize")
  | Panicked _ =>
      snd (SysctlUint64 h "hw.memsize") = None /\
      fst (getVMStats h) = 0 /\ fst (getPageSize h) = 0
  end.
Proof.
  unfold collectSystemStats.
  destruct (collectMemoryStats_cases h)
    as [(e & He & Hc) | [(Hm & e & He & Hc) | (Hm & v & Hv & Hc)]];
    rewrite Hc; cbn [bind].
  - split; [reflexivity|]. left. exists e. split; [exact He | reflexivity].
  - split; [reflexivity|]. right.
    destruct (getVMStatistics64_cases h) as [(Hne & Hg) | (Hz & v & Hg)];
      rewrite Hg in He; cbn in He; [| discriminate].
    injection He as <-. split; [exact Hm|]. split; [exact Hne | reflexivity].
  - destruct (getVMStatistics64_cases h) as [(Hne & Hg) | (Hz & v' & Hg)];
      [rewrite Hg in Hv; discriminate |].
    destruct (memStats_of _ _ v) as [ms|r] eqn:E; cbn [bind].
    + apply memStats_of_returned in E as (Hnz & Ht & _).
      repeat split; assumption.
    + unfold memStats_of, div64 in E.
      destruct (Z.eqb_spec (fst (getPageSize h)) 0) as [Hp|Hp];
        [| cbn in E; discriminate].
      repeat split; assumption.
Qed.

(** X4. Whatever the host answers, the stats [collectSystemStats]
    returns carry no CPU, GPU, uptime or swap figure: those parts are
    the zero values, on success and on error alike. *)
Theorem collected_stats_only_memory h st err :
  collectSystemStats h = Returned (st, err) ->
  CPU st = zero_CPUStats /\ GPU st = zero_GPUStats /\ Uptime st = 0 /\
  Swap (Memory st) = zero_SwapStats.
Proof.
  unfold collectSystemStats.
  destruct (collectMemoryStats_cases h)
    as [(e & He & Hc) | [(Hm & e & He & Hc) | (Hm & v & Hv & Hc)]];
    rewrite Hc; cbn [bind].
  - intros H. injection H as <- _. repeat split.
  - intros H. injection H as <- _. repeat split.
  - unfold memStats_of.
    destruct (div64 _ _) as [q|r]; cbn [bind collectSwapStats];
      [| discriminate].
    intros H.
    apply (f_equal (fun o => match o with
                             | Returned (x, _) => x
                             | Panicked _ => st
                             end)) in H.
    cbv beta iota delta [nil_error] in H. subst st. repeat split.
Qed.

Lemma collected_stats_only_memory_witness :
  CPU (stats model1) = zero_CPUStats /\ GPU (stats model1) = zero_GPUStats /\
  Uptime (stats model1) = 0 /\
  Swap (Memory (stats model1)) = zero_SwapStats.
Proof.
  apply (@collected_stats_only_memory
           (host_ok 4096000 4096 vm_example) (stats model1) nil_error).
  vm_compute. reflexivity.
Defined.

(** X5. [Update] panics in one situation only: the message is a tick,
    the [hw.memsize] query and [host_statistics64] both succeed, and
    the page size obtained is zero (the division of line 97). On every
    other message and host it returns. *)
Theorem Update_panics_iff h m msg :
  (exists r, Update h m msg = Panicked r) <->
  ((exists t, msg = TickMsg t) /\
   snd (SysctlUint64 h "hw.memsize") = None /\
   fst (getVMStats h) = 0 /\ fst (getPageSize h) = 0).
Proof.
  assert (Hcollect :
    (exists r, collectSystemStats h = Panicked r) <->
    (snd (SysctlUint64 h "hw.memsize") = None /\
     fst (getVMStats h) = 0 /\ fst (getPageSize h) = 0)).
  { unfold collectSystemStats.
    destruct (collectMemoryStats_cases h)
      as [(e & He & Hc) | [(Hm & e & He & Hc) | (Hm & v & Hv & Hc)]];
      rewrite Hc; cbn [bind].
    - split; [intros [r Hr]; discriminate | intros (Hn & _); congruence].
    - destruct (getVMStatistics64_cases h) as [(Hne & Hg) | (Hz & v & Hg)].
      + split; [intros [r Hr]; discriminate | intros (_ & Hz & _); contradiction].
      + rewrite Hg in He. discriminate.
    - destruct (getVMStatistics64_cases h) as [(Hne & Hg) | (Hz & v' & Hg)];
        [rewrite Hg in Hv; discriminate |].
      unfold memStats_of, div64.
      destruct (Z.eqb_spec (fst (getPageSize h)) 0) as [Hp|Hp];
        cbn [bind collectSwapStats].
      + split; [intros _; auto | intros _; eexists; reflexivity].
      + split; [intros [r Hr]; discriminate
               | intros (_ & _ & Hp'); contradiction]. }
  destruct msg as [w hgt | t | key |]; cbn [Update].
  - split; [intros [r Hr]; discriminate | intros ([t Ht] & _); discriminate].
  - rewrite <- Hcollect.
    destruct (collectSystemStats h) as [[st err]|r]; cbn [bind].
    + split; [intros [r Hr]; discriminate | intros (_ & r & Hr); discriminate].
    + split; [intros _; split; eexists; reflexivity
             | intros _; eexists; reflexivity].
  - split; [intros [r Hr]; discriminate | intros ([t Ht] & _); discriminate].
  - split; [intros [r Hr]; discriminate | intros ([t Ht] & _); discriminate].
Qed.

(** X6. [GetVMStatisticsCGO] loses nothing: when the kernel returns
    code 0 and a structure whose fields hold values of their types, the
    Go structure returned is that structure, field for field, with a
    nil error; with any other code it returns no structure and an
    error carrying the code. *)
Theorem GetVMStatisticsCGO_lossless h :
  (fst (getVMStats h) = 0 -> wf_vm_all (snd (getVMStats h)) ->
   GetVMStatisticsCGO h = (Some (snd (getVMStats h)), nil_error)) /\
  (fst (getVMStats h) <> 0 ->
   GetVMStatisticsCGO h =
     (None, Some ("host_statistics64 failed with error code: "
                  +++ fmt_d (fst (getVMStats h))))).
Proof.
  unfold GetVMStatisticsCGO. destruct (getVMStats h) as [ret c].
  cbn [fst snd]. split.
  - intros -> Hwf. cbn [Z.eqb negb]. unfold wf_vm_all in Hwf.
    destruct Hwf as (H1 & H2 & H3 & H4 & H5 & H6 & H7 & H8 & H9 & H10
                     & H11 & H12 & H13 & H14 & H15 & H16 & H17 & H18
                     & H19 & H20 & H21 & H22 & H23 & H24).
    destruct c. cbn in *. unfold uint32, uint64.
    rewrite !Z.mod_small by assumption. reflexivity.
  - intros Hne. destruct (Z.eqb_spec ret 0); [contradiction | reflexivity].
Qed.

Lemma GetVMStatisticsCGO_lossless_witness :
  GetVMStatisticsCGO (host_ok 4096000 4096 vm_example)
  = (Some vm_example, nil_error).
Proof.
  apply (proj1 (GetVMStatisticsCGO_lossless
                  (host_ok 4096000 4096 vm_example))).
  - reflexivity.
  - unfold wf_vm_all, in_u32, in_u64. rewrite two32_val, two64_val.
    cbn. repeat split; lia.
Defined.

(* ================================================================== *)
(** ** Further properties of the state machine *)
(* ================================================================== *)

Ltac pick_case :=
  first [ solve [split; [intuition congruence | reflexivity]]
        | left; pick_case
        | right; pick_case ].

(** The key switch, case by case. *)
Lemma Update_key_cases m key :
  ((key = "ctrl+c"%string \/ key = "q"%string) /\
   Update_key m key = (set_quit m true, Some Quit))
  \/ (key = "1"%string /\
      Update_key m key = (set_viewMode m OverviewMode, None))
  \/ (key = "2"%string /\
      Update_key m key = (set_viewMode m CPUDetailMode, None))
  \/ (key = "3"%string /\
      Update_key m key = (set_viewMode m MemoryDetailMode, None))
  \/ (key = "4"%string /\
      Update_key m key = (set_viewMode m GPUDetailMode, None))
  \/ ((key = "+"%string \/ key = "="%string) /\
      Update_key m key =
        if refreshRate m >? 100 * Millisecond
        then (set_refreshRate m (int64 (refreshRate m - 100 * Millisecond)),
              None)
        else (m, None))
  \/ ((key = "-"%string \/ key = "_"%string) /\
      Update_key m key =
        if refreshRate m <? 5 * Second
        then (set_refreshRate m (int64 (refreshRate m + 100 * Millisecond)),
              None)
        else (m, None))
  \/ (bound_key key = false /\ Update_key m key = (m, None)).
Proof.
  unfold Update_key, bound_key.
  repeat match goal with
         | |- context [String.eqb key ?s] =>
             destruct (String.eqb_spec key s) as [-> | ?]; cbn [orb]
         end;
    cbn [String.eqb Ascii.eqb Bool.eqb orb andb]; pick_case.
Qed.

(** The key handler leaves alone what belongs to ticks and resizes. *)
Lemma Update_key_fields m key :
  stats (fst (Update_key m key)) = stats m /\
  lastError (fst (Update_key m key)) = lastError m /\
  lastUpdate (fst (Update_key m key)) = lastUpdate m /\
  width (fst (Update_key m key)) = width m /\
  height (fst (Update_key m key)) = height m.
Proof.
  unfold Update_key.
  repeat match goal with
         | |- context [if ?b then _ else _] => destruct b
         end; cbn; repeat split; reflexivity.
Qed.

Lemma set_refreshRate_twice m a b :
  set_refreshRate (set_refreshRate m a) b = set_refreshRate m b.
Proof. reflexivity. Qed.

Lemma set_refreshRate_same m : set_refreshRate m (refreshRate m) = m.
Proof. destruct m. reflexivity. Qed.

Lemma set_viewMode_twice m a b :
  set_viewMode (set_viewMode m a) b = set_viewMode m b.
Proof. reflexivity. Qed.

(** The stats [collectSystemStats] returns: a memory part with zero
    swap inside zero CPU, GPU and uptime parts. *)
Lemma collectSystemStats_shape h st err :
  collectSystemStats h = Returned (st, err) ->
  exists mem,
    Swap mem = zero_SwapStats /\
    st = {| CPU := zero_CPUStats; Memory := mem; GPU := zero_GPUStats;
            Uptime := 0 |}.
Proof.
  unfold collectSystemStats.
  destruct (collectMemoryStats_cases h)
    as [(e & He & Hc) | [(Hm & e & He & Hc) | (Hm & v & Hv & Hc)]];
    rewrite Hc; cbn [bind].
  - intros H. injection H as <- _. eexists. split; [| reflexivity].
    reflexivity.
  - intros H. injection H as <- _. eexists. split; [| reflexivity].
    reflexivity.
  - unfold memStats_of.
    destruct (div64 _ _) as [q|r]; cbn [bind collectSwapStats];
      [| discriminate].
    intros H.
    apply (f_equal (fun o => match o with
                             | Returned (x, _) => x
                             | Panicked _ => st
                             end)) in H.
    cbv beta iota delta [nil_error] in H. subst st.
    eexists. split; [| reflexivity]. reflexivity.
Qed.

(** X7. Each of the keys 1 to 4 selects its view mode and nothing
    else: the state returned differs from the old one in [viewMode]
    only, no command is issued, and pressing the same key again
    returns the same state. *)
Theorem view_keys_select_mode_only h m key :
  In key ["1"; "2"; "3"; "4"]%string ->
  let mode :=
    if (key =? "1")%string then OverviewMode
    else if (key =? "2")%string then CPUDetailMode
    else if (key =? "3")%string then MemoryDetailMode
    else GPUDetailMode in
  Update h m (KeyMsg key) = Returned (set_viewMode m mode, None) /\
  Update h (set_viewMode m mode) (KeyMsg key)
    = Returned (set_viewMode m mode, None).
Proof.
  intros Hin. cbn in Hin.
  destruct Hin as [<- | [<- | [<- | [<- | []]]]]; split; reflexivity.
Qed.

Lemma view_keys_select_mode_only_witness :
  Update (host_vm_failure 4096 4096) model1 (KeyMsg "2")
    = Returned (set_viewMode model1 CPUDetailMode, None) /\
  Update (host_vm_failure 4096 4096) (set_viewMode model1 CPUDetailMode)
         (KeyMsg "2")
    = Returned (set_viewMode model1 CPUDetailMode, None).
Proof.
  apply (@view_keys_select_mode_only (host_vm_failure 4096 4096) model1 "2").
  cbn. auto.
Defined.

(** X8. Input the switch has no case for changes nothing: a key other
    than ctrl+c, q, 1, 2, 3, 4, +, =, - and _, or a message of another
    type, returns the state as it was and no command. *)
Theorem unbound_input_changes_nothing h m :
  (forall key, bound_key key = false ->
     Update h m (KeyMsg key) = Returned (m, None)) /\
  Update h m OtherMsg = Returned (m, None).
Proof.
  split; [| reflexivity].
  intros key Hk. cbn [Update]. f_equal.
  destruct (Update_key_cases m key)
    as [[[-> | ->] _] | [[-> _] | [[-> _] | [[-> _] | [[-> _]
       | [[[-> | ->] _] | [[[-> | ->] _] | [_ H]]]]]]]];
    try (cbn in Hk; discriminate).
  exact H.
Qed.

Lemma unbound_input_changes_nothing_witness :
  Update (host_vm_failure 4096 4096) model1 (KeyMsg "x")
  = Returned (model1, None).
Proof.
  apply (proj1 (unbound_input_changes_nothing
                  (host_vm_failure 4096 4096) model1)).
  reflexivity.
Defined.

(** X9. [Update] hands [tea.Quit] to the runtime exactly on the keys q
    and ctrl+c, and then the state returned is the old one with [quit]
    set: no other message ends the session. *)
Theorem Update_quits_iff h m msg m' :
  Update h m msg = Returned (m', Some Quit) <->
  ((msg = KeyMsg "q" \/ msg = KeyMsg "ctrl+c") /\ m' = set_quit m true).
Proof.
  split.
  - destruct msg as [w hgt | t | key |]; cbn [Update].
    + discriminate.
    + destruct (collectSystemStats h) as [[st err]|r]; cbn [bind];
        discriminate.
    + intros H. injection H as H.
      destruct (Update_key_cases m key)
        as [[Hk E] | [[_ E] | [[_ E] | [[_ E] | [[_ E]
           | [[_ E] | [[_ E] | [_ E]]]]]]]];
        rewrite E in H;
        try discriminate;
        try (destruct (_ >? _); discriminate);
        try (destruct (_ <? _); discriminate).
      injection H as <-. split; [| reflexivity].
      destruct Hk as [-> | ->]; auto.
    + discriminate.
  - intros [[-> | ->] ->]; reflexivity.
Qed.

(** X10. Each field of the state belongs to one kind of message: a
    message that is not a tick leaves [stats], [lastError] and
    [lastUpdate] as they were; one that is not a key leaves [viewMode],
    [refreshRate] and [quit]; one that is not a resize leaves [width]
    and [height]. *)
Theorem Update_frame h m msg m' c :
  Update h m msg = Returned (m', c) ->
  ((forall t, msg <> TickMsg t) ->
   stats m' = stats m /\ lastError m' = lastError m /\
   lastUpdate m' = lastUpdate m) /\
  ((forall key, msg <> KeyMsg key) ->
   viewMode m' = viewMode m /\ refreshRate m' = refreshRate m /\
   quit m' = quit m) /\
  ((forall w hgt, msg <> WindowSizeMsg w hgt) ->
   width m' = width m /\ height m' = height m).
Proof.
  destruct msg as [w hgt | t | key |]; cbn [Update].
  - intros H. injection H as <- _.
    split; [| split]; intros Hn;
      first [ solve [repeat split; reflexivity]
            | exfalso; eapply Hn; reflexivity ].
  - destruct (collectSystemStats h) as [[st [e|]]|r]; cbn [bind];
      try discriminate;
      intros H; injection H as <- _;
      (split; [| split]); intros Hn;
      first [ solve [repeat split; reflexivity]
            | exfalso; eapply Hn; reflexivity ].
  - intros H. injection H as H.
    pose proof (Update_key_fields m key) as (Hs & He & Hu & Hw & Hh).
    rewrite H in *. cbn [fst] in *.
    split; [| split]; intros Hn;
      first [ solve [repeat split; assumption]
            | exfalso; eapply Hn; reflexivity ].
  - intros H. injection H as <- _.
    split; [| split]; intros Hn; repeat split; reflexivity.
Qed.

Lemma Update_frame_witness :
  ((forall t, KeyMsg "2" <> TickMsg t) ->
   stats (set_viewMode model1 CPUDetailMode) = stats model1 /\
   lastError (set_viewMode model1 CPUDetailMode) = lastError model1 /\
   lastUpdate (set_viewMode model1 CPUDetailMode) = lastUpdate model1) /\
  ((forall key, KeyMsg "2" <> KeyMsg key) ->
   viewMode (set_viewMode model1 CPUDetailMode) = viewMode model1 /\
   refreshRate (set_viewMode model1 CPUDetailMode) = refreshRate model1 /\
   quit (set_viewMode model1 CPUDetailMode) = quit model1) /\
  ((forall w hgt, KeyMsg "2" <> WindowSizeMsg w hgt) ->
   width (set_viewMode model1 CPUDetailMode) = width model1 /\
   height (set_viewMode model1 CPUDetailMode) = height model1).
Proof.
  apply (@Update_frame (host_vm_failure 4096 4096) model1 (KeyMsg "2")
           (set_viewMode model1 CPUDetailMode) None).
  reflexivity.
Defined.

(** X11. A tick command is returned exactly on a tick message, and its
    delay is the refresh rate of the state returned, which the tick did
    not change: the timer is re-armed once per tick, with the rate in
    force. *)
Theorem Update_rearms_timer_on_tick_only h m msg m' c :
  Update h m msg = Returned (m', c) ->
  ((exists t, msg = TickMsg t) <-> (exists d, c = Some (Tick d))) /\
  (forall d, c = Some (Tick d) ->
     d = refreshRate m' /\ refreshRate m' = refreshRate m).
Proof.
  destruct msg as [w hgt | t | key |]; cbn [Update].
  - intros H. injection H as <- <-. split.
    + split; [intros [t Ht] | intros [d Hd]]; discriminate.
    + intros d Hd. discriminate.
  - destruct (collectSystemStats h) as [[st [e|]]|r]; cbn [bind];
      try discriminate;
      intros H; injection H as <- <-; (split;
        [ split; intros _; eexists; reflexivity
        | intros d Hd; injection Hd as <-; split; reflexivity ]).
  - intros H. injection H as H.
    assert (Hc : c = None \/ c = Some Quit).
    { destruct (Update_key_cases m key)
        as [[_ E] | [[_ E] | [[_ E] | [[_ E] | [[_ E]
           | [[_ E] | [[_ E] | [_ E]]]]]]]];
        rewrite E in H;
        try (injection H as _ <-; auto);
        [ destruct (_ >? _) | destruct (_ <? _) ];
        injection H as _ <-; auto. }
    split.
    + split; [intros [t Ht]; discriminate |].
      intros [d Hd]. destruct Hc as [-> | ->]; discriminate.
    + intros d Hd. destruct Hc as [-> | ->]; discriminate.
  - intros H. injection H as <- <-. split.
    + split; [intros [t Ht] | intros [d Hd]]; discriminate.
    + intros d Hd. discriminate.
Qed.

Lemma Update_rearms_timer_on_tick_only_witness :
  ((exists t, TickMsg 5 = TickMsg t) <->
   (exists d, Some (Tick Second) = Some (Tick d))) /\
  (forall d, Some (Tick Second) = Some (Tick d) ->
     d = refreshRate (set_lastUpdate (set_stats model0 (stats model1)) 5) /\
     refreshRate (set_lastUpdate (set_stats model0 (stats model1)) 5)
       = refreshRate model0).
Proof.
  apply (@Update_rearms_timer_on_tick_only
           (host_ok (4096 * 1000) 4096 vm_example) model0 (TickMsg 5)
           (set_lastUpdate (set_stats model0 (stats model1)) 5)
           (Some (Tick Second))).
  vm_compute. reflexivity.
Defined.

(** [n] requests for a longer interval take a rate of [k] steps to
    [min 50 (k + n)] steps. *)
Lemma run_increments events : forall m k,
  Forall increment_event events ->
  1 <= k <= 50 -> refreshRate m = k * (100 * Millisecond) ->
  exists m', run m events = Returned m' /\
    refreshRate m' =
      Z.min 50 (k + Z.of_nat (length events)) * (100 * Millisecond).
Proof.
  induction events as [| [h msg] rest IH]; intros m k Hall Hk Hr.
  - exists m. split; [reflexivity|]. cbn [length Z.of_nat]. rewrite Hr.
    f_equal. lia.
  - inversion Hall as [| ? ? Hd Hrest]; subst.
    assert (Hkey : exists key, msg = KeyMsg key /\
                     (key = "-"%string \/ key = "_"%string)).
    { destruct Hd as [Hd | Hd]; cbn in Hd; subst msg; eexists; split;
        try reflexivity; auto. }
    destruct Hkey as (key & -> & Hkey).
    cbn [run Update bind]. rewrite (Update_key_slower m Hkey Hk Hr).
    destruct (Z.eqb_spec k 50) as [-> | Hne].
    + destruct (IH m 50 Hrest Hk Hr) as (m' & Hrun & Hrate).
      exists m'. split; [exact Hrun|]. rewrite Hrate. f_equal.
      cbn [length]. lia.
    + destruct (IH (set_refreshRate m ((k + 1) * (100 * Millisecond)))
                  (k + 1) Hrest) as (m' & Hrun & Hrate);
        [lia | reflexivity |].
      exists m'. split; [exact Hrun|]. rewrite Hrate. f_equal.
      cbn [length]. lia.
Qed.

(** X12. Between the bounds the two rate keys undo each other: from a
    rate on the 100ms grid below 5000ms, a longer-interval key followed
    by a shorter-interval key returns the very state one started from,
    and likewise in the other order above 100ms. At a bound the pair
    does not: from 5000ms it ends at 4900ms, from 100ms at 200ms. *)
Theorem rate_keys_undo_each_other h1 h2 m kf ks :
  kf = "+"%string \/ kf = "="%string ->
  ks = "-"%string \/ ks = "_"%string ->
  rate_ok (refreshRate m) ->
  (refreshRate m < 5000 * Millisecond ->
   run m [(h1, KeyMsg ks); (h2, KeyMsg kf)] = Returned m) /\
  (100 * Millisecond < refreshRate m ->
   run m [(h1, KeyMsg kf); (h2, KeyMsg ks)] = Returned m) /\
  (refreshRate m = 5000 * Millisecond ->
   run m [(h1, KeyMsg ks); (h2, KeyMsg kf)]
     = Returned (set_refreshRate m (4900 * Millisecond))) /\
  (refreshRate m = 100 * Millisecond ->
   run m [(h1, KeyMsg kf); (h2, KeyMsg ks)]
     = Returned (set_refreshRate m (200 * Millisecond))).
Proof.
  intros Hf Hs (k & Hk & Hr). cbn [run Update bind].
  split; [| split; [| split]]; intros Hb.
  - rewrite (Update_key_slower m Hs Hk Hr).
    destruct (Z.eqb_spec k 50) as [-> | Hne];
      [rewrite Hr in Hb; unfold Millisecond in Hb; lia |].
    cbn [bind].
    rewrite (@Update_key_faster _ kf (k + 1) Hf); [| lia | reflexivity].
    destruct (Z.eqb_spec (k + 1) 1); [lia |].
    cbn [bind run]. rewrite set_refreshRate_twice.
    replace ((k + 1 - 1) * (100 * Millisecond)) with (refreshRate m)
      by (rewrite Hr; lia).
    rewrite set_refreshRate_same. reflexivity.
  - rewrite (Update_key_faster m Hf Hk Hr).
    destruct (Z.eqb_spec k 1) as [-> | Hne];
      [rewrite Hr in Hb; unfold Millisecond in Hb; lia |].
    cbn [bind].
    rewrite (@Update_key_slower _ ks (k - 1) Hs); [| lia | reflexivity].
    destruct (Z.eqb_spec (k - 1) 50); [lia |].
    cbn [bind run]. rewrite set_refreshRate_twice.
    replace ((k - 1 + 1) * (100 * Millisecond)) with (refreshRate m)
      by (rewrite Hr; lia).
    rewrite set_refreshRate_same. reflexivity.
  - assert (k = 50) as -> by (rewrite Hr in Hb; unfold Millisecond in Hb; lia).
    rewrite (Update_key_slower m Hs Hk Hr). cbn [Z.eqb Pos.eqb bind].
    rewrite (@Update_key_faster _ kf 50 Hf); [| lia | exact Hr].
    cbn [Z.eqb Pos.eqb bind run]. do 2 f_equal.
  - assert (k = 1) as -> by (rewrite Hr in Hb; unfold Millisecond in Hb; lia).
    rewrite (Update_key_faster m Hf Hk Hr). cbn [Z.eqb Pos.eqb bind].
    rewrite (@Update_key_slower _ ks 1 Hs); [| lia | exact Hr].
    cbn [Z.eqb Pos.eqb bind run]. do 2 f_equal.
Qed.

Lemma rate_keys_undo_each_other_witness :
  run model1 [(host_vm_failure 4096 4096, KeyMsg "-");
              (host_vm_failure 4096 4096, KeyMsg "+")]
  = Returned model1.
Proof.
  apply (proj1 (@rate_keys_undo_each_other
                  (host_vm_failure 4096 4096) (host_vm_failure 4096 4096)
                  model1 "+" "-" (or_introl eq_refl) (or_introl eq_refl)
                  rate_ok_Second)).
  vm_compute. reflexivity.
Defined.

(** X13. From a rate of [k] steps of 100ms, with [k] between 1 and 50,
    [n] consecutive shorter-interval keys leave a rate of
    [max 1 (k - n)] steps and [n] consecutive longer-interval keys one
    of [min 50 (k + n)] steps: the rate moves one step per key and
    stops at the bound. *)
Theorem run_rate_requests events m k :
  1 <= k <= 50 -> refreshRate m = k * (100 * Millisecond) ->
  (Forall decrement_event events ->
   exists m', run m events = Returned m' /\
     refreshRate m' =
       Z.max 1 (k - Z.of_nat (length events)) * (100 * Millisecond)) /\
  (Forall increment_event events ->
   exists m', run m events = Returned m' /\
     refreshRate m' =
       Z.min 50 (k + Z.of_nat (length events)) * (100 * Millisecond)).
Proof.
  intros Hk Hr. split; intros Hall.
  - exact (run_decrements events m k Hall Hk Hr).
  - exact (run_increments events m k Hall Hk Hr).
Qed.

Lemma run_rate_requests_witness :
  exists m',
    run model1 (repeat (host_vm_failure 4096 4096, KeyMsg "-") 45)
      = Returned m' /\
    refreshRate m' =
      Z.min 50 (10 + Z.of_nat
                       (length (repeat (host_vm_failure 4096 4096,
                                        KeyMsg "-") 45)))
      * (100 * Millisecond).
Proof.
  refine (proj2 (@run_rate_requests
                   (repeat (host_vm_failure 4096 4096, KeyMsg "-") 45)
                   model1 10 _ _) _).
  - lia.
  - reflexivity.
  - apply Forall_forall. intros x Hx. apply repeat_spec in Hx. subst x.
    left. reflexivity.
Defined.

(* ================================================================== *)
(** ** Further properties of the view and of the session *)
(* ================================================================== *)

Lemma append_assoc (a b c : string) : (a +++ b) +++ c = a +++ (b +++ c).
Proof.
  induction a as [| ch a IH]; cbn [String.append]; [reflexivity|].
  rewrite IH. reflexivity.
Qed.

(** X14. [View] returns the empty string exactly when [quit] is set;
    in a running session the text starts with the program's title. *)
Theorem View_empty_iff_quit (F : GoFmt) m :
  (View m = EmptyString <-> quit m = true) /\
  (quit m = false -> exists rest, View m = "mtop - " +++ rest).
Proof.
  assert (Hrun : quit m = false -> exists rest, View m = "mtop - " +++ rest).
  { intros Hq. unfold View. rewrite Hq. cbv zeta.
    destruct (viewMode m), (negb (lastError m =? EmptyString)%string);
      cbn [String.append]; eexists; reflexivity. }
  split; [| exact Hrun]. split.
  - intros Hv. destruct (quit m) eqn:Hq; [reflexivity|].
    destruct (Hrun eq_refl) as [rest Hrest]. rewrite Hrest in Hv.
    cbn [String.append] in Hv. discriminate.
  - intros Hq. unfold View. rewrite Hq. reflexivity.
Qed.

Lemma View_empty_iff_quit_witness :
  exists rest, @View silent_fmt model1 = "mtop - " +++ rest.
Proof.
  apply (proj2 (@View_empty_iff_quit silent_fmt model1)). reflexivity.
Defined.

(** Which hosts give which outcome of [collectSystemStats]. *)
Lemma collectSystemStats_when h :
  match collectSystemStats h with
  | Returned (_, Some _) =>
      snd (SysctlUint64 h "hw.memsize") <> None \/ fst (getVMStats h) <> 0
  | Returned (_, None) =>
      snd (SysctlUint64 h "hw.memsize") = None /\ fst (getVMStats h) = 0 /\
      fst (getPageSize h) <> 0
  | Panicked _ =>
      snd (SysctlUint64 h "hw.memsize") = None /\ fst (getVMStats h) = 0 /\
      fst (getPageSize h) = 0
  end.
Proof.
  unfold collectSystemStats.
  destruct (collectMemoryStats_cases h)
    as [(e & He & Hc) | [(Hm & e & He & Hc) | (Hm & v & Hv & Hc)]];
    rewrite Hc; cbn [bind].
  - left. congruence.
  - right.
    destruct (getVMStatistics64_cases h) as [(Hne & Hg) | (Hz & v & Hg)];
      [exact Hne | rewrite Hg in He; discriminate].
  - destruct (getVMStatistics64_cases h) as [(Hne & Hg) | (Hz & v' & Hg)];
      [rewrite Hg in Hv; discriminate |].
    unfold memStats_of, div64.
    destruct (Z.eqb_spec (fst (getPageSize h)) 0) as [Hp|Hp];
      cbn [bind collectSwapStats]; repeat split; assumption.
Qed.

(** X15. Startup survives a failed first collection. [initialModel]
    returns a state on every host but the one that makes the
    collection panic (both queries succeed, page size zero). The state
    starts in overview mode, at one second, 80 by 24, not quitting,
    with [lastUpdate] the current instant. Its [lastError] is empty
    exactly when the [hw.memsize] query and [host_statistics64] both
    succeeded; otherwise the stats are the fallback: eight cores at
    zero and every other figure zero. *)
Theorem initialModel_startup h now :
  match initialModel h now with
  | Returned m =>
      viewMode m = OverviewMode /\ refreshRate m = Second /\
      lastUpdate m = now /\ width m = 80 /\ height m = 24 /\
      quit m = false /\
      (lastError m = EmptyString <->
       snd (SysctlUint64 h "hw.memsize") = None /\ fst (getVMStats h) = 0) /\
      (lastError m <> EmptyString ->
       stats m =
         {| CPU := {| cpu_Usage := 0%float;
                      Cores := repeat 0%float 8;
                      LoadAvg := (0%float, 0%float, 0%float);
                      cpu_Temp := 0%float |};
            Memory := zero_MemoryStats;
            GPU := zero_GPUStats;
            Uptime := 0 |})
  | Panicked _ =>
      snd (SysctlUint64 h "hw.memsize") = None /\ fst (getVMStats h) = 0 /\
      fst (getPageSize h) = 0
  end.
Proof.
  pose proof (collectSystemStats_when h) as Hw. unfold initialModel.
  destruct (collectSystemStats h) as [[st [e|]]|r]; cbn [bind].
  - cbn [viewMode refreshRate lastUpdate width height quit lastError stats
         set_stats set_lastError].
    do 6 (split; [reflexivity|]). split.
    + split.
      * cbn [String.append]. discriminate.
      * intros (Hm & Hz). destruct Hw as [Hw | Hw]; contradiction.
    + intros _. reflexivity.
  - cbn [viewMode refreshRate lastUpdate width height quit lastError stats
         set_stats set_lastError].
    do 6 (split; [reflexivity|]). destruct Hw as (Hm & Hz & _). split.
    + split; [intros _; split; assumption | reflexivity].
    + intros Hne. exfalso. apply Hne. reflexivity.
  - exact Hw.
Qed.

Lemma renderOverview_lastError (F : GoFmt) m e :
  renderOverview (set_lastError m e) = renderOverview m.
Proof. reflexivity. Qed.

Lemma renderCPUDetail_lastError (F : GoFmt) m e :
  renderCPUDetail (set_lastError m e) = renderCPUDetail m.
Proof. reflexivity. Qed.

Lemma renderMemoryDetail_lastError (F : GoFmt) m e :
  renderMemoryDetail (set_lastError m e) = renderMemoryDetail m.
Proof. reflexivity. Qed.

Lemma renderGPUDetail_lastError (F : GoFmt) m e :
  renderGPUDetail (set_lastError m e) = renderGPUDetail m.
Proof. reflexivity. Qed.

(** X16. In a running session the error shows as one line, the warning
    sign followed by [lastError], placed between the body of the view
    and the footer; with an empty [lastError] there is no such line.
    Nothing else of the view depends on [lastError]. *)
Theorem View_error_banner (F : GoFmt) m :
  quit m = false ->
  exists body,
    forall e,
      View (set_lastError m e) =
        body
        +++ (if (e =? EmptyString)%string then EmptyString
             else "⚠ " +++ e +++ LF)
        +++ View_footer.
Proof.
  intros Hq. unfold View. cbn [quit set_lastError]. rewrite Hq. cbv zeta.
  eexists. intros e.
  cbn [viewMode lastUpdate refreshRate lastError set_lastError].
  rewrite renderOverview_lastError, renderCPUDetail_lastError,
    renderMemoryDetail_lastError, renderGPUDetail_lastError.
  unfold View_footer.
  destruct (e =? EmptyString)%string; cbn [negb].
  - cbn [String.append]. reflexivity.
  - rewrite append_assoc. reflexivity.
Qed.

Lemma View_error_banner_witness :
  exists body,
    forall e,
      @View silent_fmt (set_lastError model1 e) =
        body
        +++ (if (e =? EmptyString)%string then EmptyString
             else "⚠ " +++ e +++ LF)
        +++ View_footer.
Proof.
  apply (@View_error_banner silent_fmt model1). reflexivity.
Defined.




Lemma Update_only_memory h m msg m' c :
  only_memory_collected (stats m) -> Update h m msg = Returned (m', c) ->
  only_memory_collected (stats m').
Proof.
  intros Hs. destruct msg as [w hgt | t | key |]; cbn [Update].
  - intros H. injection H as <- _. exact Hs.
  - destruct (collectSystemStats h) as [[st [e|]]|r] eqn:E; cbn [bind];
      try discriminate; intros H; injection H as <- _.
    + exact Hs.
    + destruct (collectSystemStats_shape h _ _ E) as (mem & Hswap & ->).
      cbn. unfold only_memory_collected. cbn.
      repeat split; auto.
  - intros H. injection H as H.
    pose proof (Update_key_fields m key) as (Hst & _).
    rewrite H in Hst. cbn [fst] in Hst. rewrite Hst. exact Hs.
  - intros H. injection H as <- _. exact Hs.
Qed.

(** X18. In every state a session can reach, the stats on display hold
    memory figures only: CPU usage, temperature and load averages, the
    GPU part, the uptime and the swap part are zero, and the list of
    cores is empty or, after a failed startup, eight zeros. *)
Theorem reachable_only_memory m :
  reachable m -> only_memory_collected (stats m).
Proof.
  induction 1 as [h now m Hinit | h msg m m' c Hreach IH Hstep].
  - unfold initialModel in Hinit.
    destruct (collectSystemStats h) as [[st [e|]]|r] eqn:E; cbn [bind] in Hinit;
      try discriminate; injection Hinit as <-.
    + unfold only_memory_collected. cbn. repeat split; auto.
    + destruct (collectSystemStats_shape h _ _ E) as (mem & Hswap & ->).
      unfold only_memory_collected. cbn. repeat split; auto.
  - exact (Update_only_memory _ _ _ _ _ IH Hstep).
Qed.

Lemma reachable_only_memory_witness :
  only_memory_collected (stats model1).
Proof.
  apply reachable_only_memory.
  apply (@reach_init (host_ok (4096 * 1000) 4096 vm_example) 0).
  vm_compute. reflexivity.
Defined.

(** X19. A failed collection costs nothing but the error line: after a
    tick whose collection fails followed by a tick whose collection
    succeeds, the state is the one a single successful tick would have
    given, with the new stats, an empty [lastError] and the instant of
    the second tick; between the two the stats on display were still
    the old ones. *)
Theorem tick_recovers_after_failure h1 h2 m t1 t2 s1 e s2 :
  collectSystemStats h1 = Returned (s1, Some e) ->
  collectSystemStats h2 = Returned (s2, None) ->
  (exists m1,
     Update h1 m (TickMsg t1) = Returned (m1, Some (Tick (refreshRate m))) /\
     stats m1 = stats m /\ lastError m1 <> EmptyString) /\
  run m [(h1, TickMsg t1); (h2, TickMsg t2)]
    = Returned (set_lastUpdate (set_lastError (set_stats m s2) EmptyString) t2)
  /\
  run m [(h1, TickMsg t1); (h2, TickMsg t2)] = run m [(h2, TickMsg t2)].
Proof.
  intros H1 H2. cbn [run Update]. rewrite H1, H2. cbn [bind].
  split; [| split; reflexivity].
  eexists. split; [reflexivity|]. cbn. split; [reflexivity | discriminate].
Qed.

Lemma tick_recovers_after_failure_witness :
  run model0 [(host_vm_failure 4096 4096, TickMsg 1);
              (host_ok (4096 * 1000) 4096 vm_example, TickMsg 2)]
  = Returned (set_lastUpdate
                (set_lastError (set_stats model0 (stats model1)) EmptyString)
                2).
Proof.
  refine (proj1 (proj2 (@tick_recovers_after_failure
            (host_vm_failure 4096 4096)
            (host_ok (4096 * 1000) 4096 vm_example) model0 1 2
            zero_SystemStats
            "failed to collect memory stats: failed to get VM statistics: host_statistics64 failed with error code: 5"
            (stats model1) _ _))).
  - vm_compute. reflexivity.
  - vm_compute. reflexivity.
Defined.
